(** * MicroTest: the test runner and its assertion library, embedded in Rocq

  A shallow embedding of [src/lib/test-framework.js]:
  - [Js]: the JavaScript values the matchers compare, with [typeof],
    [===], [Object.is], [Object.keys] and property reads;
  - [Expect]: the class [Expect] ([toBe], [toEqual], [toStrictEqual] and
    the helpers [deepEqual] and [strictEqual]);
  - [MicroTest]: the class [MicroTest], registration ([describe], [it],
    the four hook registrars) and execution ([run], [runSuite], [runTest],
    [withTimeout]);
  - [Matchers]: further matchers of [Expect] ([toBeTruthy], [toBeFalsy],
    [toBeNull], [toBeUndefined], [toBeDefined], [toHaveProperty], [toThrow],
    [toThrowAsync]).

  User callbacks (hooks and test bodies) are functions of an abstract
  world; awaiting them either returns, throws, or never settles.  Time is
  a clock in milliseconds that callbacks and timers advance.  Console
  output is not modelled, except where logging an error can throw: a
  handler that reads [error.message] throws when [error] is null or
  undefined, and the [catch] clause of [runTest], which also calls
  [error.stack.split], throws when that stack is truthy and has no [split]
  method. *)

From Stdlib Require Import List String Bool Arith NArith Lia DecimalString PrimFloat.
From Stdlib Require Import Permutation.
Import ListNotations.
Open Scope string_scope.

(* ===================================================================== *)
(** ** JavaScript values *)
(* ===================================================================== *)

Module Js.

(** Objects, arrays and functions have an identity [ref] (two literals are
    two objects).  [ctor] is the identity of the constructor function found
    through the prototype chain ([Object], [Array], a class).  Values are
    finite trees: a cyclic object, on which the source recurses forever, is
    not a value here.  Arrays are dense: [items] lists the elements at
    positions [0 .. length - 1], all present.  An array with holes
    ([[ , 1]], [new Array(3)]), whose holes [Array.prototype.every] skips,
    is not a value here. *)
#[warnings="-register-all"]
Inductive Value : Type :=
| VUndefined
| VNull
| VBool (b : bool)
| VNumber (x : float)
| VString (s : string)
| VFunction (ref : nat)
| VArray (ref : nat) (ctor : nat) (items : list Value)
| VObject (ref : nat) (ctor : nat) (props : list (string * Value)).

Definition ObjectCtor : nat := 0.
Definition ArrayCtor : nat := 1.

Definition NaN : Value := VNumber nan.

(** [typeof v] *)
Definition typeof (v : Value) : string :=
  match v with
  | VUndefined => "undefined"
  | VNull => "object"
  | VBool _ => "boolean"
  | VNumber _ => "number"
  | VString _ => "string"
  | VFunction _ => "function"
  | VArray _ _ _ => "object"
  | VObject _ _ _ => "object"
  end.

(** [Array.isArray(v)] *)
Definition isArray (v : Value) : bool :=
  match v with VArray _ _ _ => true | _ => false end.

(** [a === b]: numbers by IEEE equality, strings by content, objects,
    arrays and functions by identity. *)
Definition strictEquals (a b : Value) : bool :=
  match a, b with
  | VUndefined, VUndefined => true
  | VNull, VNull => true
  | VBool x, VBool y => Bool.eqb x y
  | VNumber x, VNumber y => PrimFloat.eqb x y
  | VString x, VString y => String.eqb x y
  | VFunction r, VFunction r' => Nat.eqb r r'
  | VArray r _ _, VArray r' _ _ => Nat.eqb r r'
  | VObject r _ _, VObject r' _ _ => Nat.eqb r r'
  | _, _ => false
  end.

(** [Object.is(a, b)] (SameValue): as [===], but NaN is NaN and the two
    zeros differ. *)
Definition sameValueNumber (x y : float) : bool :=
  if is_nan x && is_nan y then true
  else PrimFloat.eqb x y && Bool.eqb (get_sign x) (get_sign y).

Definition objectIs (a b : Value) : bool :=
  match a, b with
  | VNumber x, VNumber y => sameValueNumber x y
  | _, _ => strictEquals a b
  end.

(** [v == null] *)
Definition looseNull (v : Value) : bool :=
  match v with VUndefined | VNull => true | _ => false end.

(** [Object.keys(v)]: the own enumerable string keys, in insertion order. *)
Definition keys (v : Value) : list string :=
  match v with
  | VObject _ _ props => map fst props
  | _ => []
  end.

Fixpoint assoc (k : string) (props : list (string * Value)) : option Value :=
  match props with
  | [] => None
  | (k', v) :: rest => if String.eqb k k' then Some v else assoc k rest
  end.

(** [v[key]] for a string key: an own property, else the inherited
    [constructor], else [undefined].  This is the read at every key but the
    other names an object inherits ([toString], [valueOf], [hasOwnProperty]
    and the rest of [Object.prototype], the methods of its class), where the
    real read finds the inherited value: a missing key of that kind is
    outside what [get] describes. *)
Definition get (v : Value) (key : string) : Value :=
  match v with
  | VObject _ ctor props =>
      match assoc key props with
      | Some x => x
      | None => if String.eqb key "constructor" then VFunction ctor else VUndefined
      end
  | VArray _ ctor _ =>
      if String.eqb key "constructor" then VFunction ctor else VUndefined
  | _ => VUndefined
  end.

(** [v[index]] for an array index. *)
Definition at_index (v : Value) (index : nat) : Value :=
  match v with
  | VArray _ _ items => nth index items VUndefined
  | _ => VUndefined
  end.

(** [v.length] of an array *)
Definition length_of (v : Value) : nat :=
  match v with
  | VArray _ _ items => List.length items
  | _ => 0
  end.

(** [Object.prototype.hasOwnProperty.call(v, key)] *)
Definition hasOwn (v : Value) (key : string) : bool :=
  match v with
  | VObject _ _ props => match assoc key props with Some _ => true | None => false end
  | _ => false
  end.

End Js.

(* ===================================================================== *)
(** ** Values that are thrown *)
(* ===================================================================== *)

(** What a [catch (error)] clause can receive.  The handlers of the runner
    only ever read [error.message] and, in [runTest], use [error.stack], so a
    thrown value is classified by what those two do.  A value whose
    [message] cannot be read or printed (a getter that throws, a Symbol) is
    not classified here. *)
Inductive Thrown : Type :=
| ThrownNullish
    (* [throw null], [throw undefined], [Promise.reject()] *)
| ThrownError (message : string)
    (* [new Error(message)], or any other value that is not null or
       undefined, whose [.message] can be read and printed and whose [.stack]
       is falsy or a string *)
| ThrownExpectation (actual : Js.Value) (negated : bool) (relation : string)
                    (expected : Js.Value)
    (* the Error a matcher throws; its message is "Expected", the JSON text
       of [actual], "not" when negated, the relation ("to be", "to equal",
       "to strictly equal") and the JSON text of [expected] *)
| ThrownTypeError
    (* the TypeError the engine raises on a property read off null/undefined
       or on a call of something that is not a function *)
| ThrownOddStack (message : string).
    (* a value whose [.message] can be read and printed and whose [.stack] is
       truthy and has no [split] method, so that [error.stack.split] is not
       a function: [{ message, stack: 42 }], a stack that is [true], an
       array or a plain object *)

(** Result of a synchronous call. *)
Inductive Outcome (A : Type) : Type :=
| Normal (a : A)
| Throw (e : Thrown).
Arguments Normal {A} a.
Arguments Throw {A} e.

(** [Array.prototype.every]: the callback receives the element and its
    index; the scan stops at the first element it rejects. *)
Section Every.
Variable A : Type.
Variable callback : A -> nat -> bool.

Fixpoint every_from (l : list A) (index : nat) {struct l} : bool :=
  match l with
  | [] => true
  | x :: l' => if callback x index then every_from l' (S index) else false
  end.

Definition every (l : list A) : bool := every_from l 0.
End Every.
Arguments every_from {A} callback l index.
Arguments every {A} callback l.

(* ===================================================================== *)
(** ** class Expect *)
(* ===================================================================== *)

Module Expect.
Import Js.

(** [deepEqual(a, b)], by recursion on [a]: every recursive call of the
    source is on an element or a property value of [a].  In the object case
    the scan runs over the entries of [a]: for each key of [Object.keys(a)]
    the entry's value is [a[key]]. *)
Fixpoint deepEqual (a b : Value) {struct a} : bool :=
  if strictEquals a b then true
  else if looseNull a || looseNull b then false
  else if negb (typeof a =? typeof b) then false
  else if negb (typeof a =? "object") then strictEquals a b
  else
    match a with
    | VArray _ _ items =>
        if isArray b then
          if negb (List.length items =? length_of b)%nat then false
          else every (fun item index => deepEqual item (at_index b index)) items
        else false                    (* Array.isArray(a) !== Array.isArray(b) *)
    | VObject _ _ props =>
        if isArray b then false       (* Array.isArray(a) !== Array.isArray(b) *)
        else if negb (List.length (keys a) =? List.length (keys b))%nat then false
        else every (fun entry _ => let '(key, value) := entry in
                                   deepEqual value (get b key)) props
    | _ => false   (* not reached: typeof a is "object" and a is not null *)
    end.

(** [strictEqual(a, b)].  [a.constructor] is read without a null check, so
    the call throws when one side is [null] and the other a plain object. *)
Definition strictEqual (a b : Value) : Outcome bool :=
  if strictEquals a b then Normal true
  else if negb (typeof a =? typeof b) then Normal false
  else if negb (typeof a =? "object") then Normal false
  else if negb (Bool.eqb (isArray a) (isArray b)) then Normal false
  else if looseNull a || looseNull b then Throw ThrownTypeError
  else if negb (strictEquals (get a "constructor") (get b "constructor"))
       then Normal false
  else Normal (deepEqual a b).

Record Expect : Type := { actual : Value; isNot : bool }.

(** [expect(actual)] *)
Definition expect (v : Value) : Expect := {| actual := v; isNot := false |}.

(** the getter [not] *)
Definition not (e : Expect) : Expect :=
  {| actual := actual e; isNot := negb (isNot e) |}.

Definition toBe (e : Expect) (expected : Value) : Outcome unit :=
  let passed := objectIs (actual e) expected in
  if Bool.eqb passed (isNot e)
  then Throw (ThrownExpectation (actual e) (isNot e) "to be" expected)
  else Normal tt.

Definition toEqual (e : Expect) (expected : Value) : Outcome unit :=
  let passed := deepEqual (actual e) expected in
  if Bool.eqb passed (isNot e)
  then Throw (ThrownExpectation (actual e) (isNot e) "to equal" expected)
  else Normal tt.

Definition toStrictEqual (e : Expect) (expected : Value) : Outcome unit :=
  match strictEqual (actual e) expected with
  | Throw err => Throw err
  | Normal passed =>
      if Bool.eqb passed (isNot e)
      then Throw (ThrownExpectation (actual e) (isNot e) "to strictly equal" expected)
      else Normal tt
  end.

(** The container kinds of two values agree wherever a comparison looks:
    the values are identical, or both are arrays, or both are non-array
    objects, and so on through every element and property value. *)
Inductive SameKinds : Value -> Value -> Prop :=
| SK_identical a b :
    strictEquals a b = true -> SameKinds a b
| SK_array r c items b :
    isArray b = true ->
    (forall i v, nth_error items i = Some v -> SameKinds v (at_index b i)) ->
    SameKinds (VArray r c items) b
| SK_object r c props b :
    isArray b = false -> typeof b = "object" -> looseNull b = false ->
    (forall k v, In (k, v) props -> SameKinds v (get b k)) ->
    SameKinds (VObject r c props) b.

End Expect.

(* ===================================================================== *)
(** ** class MicroTest *)
(* ===================================================================== *)

Module MicroTest.

(** An awaited computation returns, throws (a rejected promise), or never
    settles. *)
Inductive Completion (A : Type) : Type :=
| Returns (a : A)
| Throws (e : Thrown)
| Hangs.
Arguments Returns {A} a.
Arguments Throws {A} e.
Arguments Hangs {A}.

(** [for (const x of l) { await body(x) }] over a threaded state: the loop
    stops at the first iteration that throws or never settles. *)
Section ForAwait.
Variables A S : Type.
Variable body : A -> S -> S * Completion unit.

Fixpoint forAwait (l : list A) (s : S) {struct l} : S * Completion unit :=
  match l with
  | [] => (s, Returns tt)
  | x :: l' =>
      match body x s with
      | (s', Returns _) => forAwait l' s'
      | stopped => stopped
      end
  end.
End ForAwait.
Arguments forAwait {A S} body l s.

(** Evaluating [error.message] inside a handler: a property read off
    [null] or [undefined] raises a TypeError, which leaves the handler. *)
Definition readMessage (error : Thrown) : option Thrown :=
  match error with
  | ThrownNullish => Some ThrownTypeError
  | _ => None
  end.

(** Lines 241-246, [if (error.stack) { error.stack.split(...) ... }]: on a
    stack that is truthy and has no [split] method the call raises a
    TypeError; a falsy stack is not looked at, and the lines of a string are
    sliced and trimmed without more ado. *)
Definition logStack (error : Thrown) : option Thrown :=
  match error with
  | ThrownOddStack _ => Some ThrownTypeError
  | _ => None
  end.

(** What the [catch] clause of [runTest] logs, in order: [error.message],
    then the first lines of [error.stack]. *)
Definition logFailure (error : Thrown) : option Thrown :=
  match readMessage error with
  | Some typeError => Some typeError
  | None => logStack error
  end.

(** [`Test timeout after ${timeout}ms`] *)
Definition timeoutMessage (timeout : N) : string :=
  "Test timeout after " ++ NilZero.string_of_uint (N.to_uint timeout) ++ "ms".

Section Runner.

(** The state user callbacks read and write (closures, globals, files). *)
Variable W : Type.

(** The world and [performance.now()], in milliseconds.  The runner's own
    statements take no time; time passes inside callbacks and timers. *)
Record Env : Type := { world : W; now : N }.

Definition after (ms : N) (w : W) (e : Env) : Env :=
  {| world := w; now := now e + ms |}.

(** [await hook()]: the call settles after [elapsed] ms, fulfilled
    ([thrown = None]) or thrown/rejected, or its promise stays pending. *)
Inductive HookRun : Type :=
| HookSettles (elapsed : N) (w : W) (thrown : option Thrown)
| HookPending (w : W).

Definition Hook : Type := W -> HookRun.

(** How a promise settles. *)
Inductive Settlement : Type :=
| Fulfils
| Rejects (e : Thrown).

(** What [test.fn()] hands back after its synchronous part: it throws, it
    returns a value that is not a promise, or it returns a promise that
    settles [delay] ms after the call returned (or never, [None]).  A
    promise that settles in the very millisecond the timer fires wins the
    race: its own timers were armed before the race timer.  The call itself
    comes back, after [sync_ms]: a body that loops forever, with which
    [runTest] never gets to the race, is not a [Body]. *)
Inductive Returned : Type :=
| ThrowsSync (e : Thrown)
| Plain
| Promise (settles : option (N * W * Settlement)).

Record Call : Type := { sync_ms : N; sync_world : W; returned : Returned }.

Definition Body : Type := W -> Call.

Record Test : Type := {
  test_name : string;
  test_fn : Body;
  test_skip : bool;
  test_only : bool;
  test_timeout : N
}.

#[warnings="-register-all"]
Inductive Suite : Type := mkSuite {
  suite_name : string;
  suite_tests : list Test;
  suite_beforeEach : list Hook;
  suite_afterEach : list Hook;
  suite_beforeAll : list Hook;
  suite_afterAll : list Hook;
  suite_nested : list Suite
}.

Record TestResult : Type := {
  tr_name : string;
  tr_passed : bool;
  tr_error : option Thrown;
  tr_duration : N
}.

Record SuiteResults : Type := {
  sr_name : string;
  sr_passed : nat;
  sr_failed : nat;
  sr_skipped : nat;
  sr_tests : list TestResult
}.

(** [this.results] *)
Record Results : Type := {
  passed : nat;
  failed : nat;
  skipped : nat;
  total : nat;
  duration : N;
  suites : list SuiteResults
}.

(** The instance.  The four hook arrays the constructor also creates
    ([beforeEachHooks], ...) are never read or written again and are left
    out. *)
Record Instance : Type := {
  mt_suites : list Suite;
  currentSuite : option Suite;
  results : Results
}.

(** [new MicroTest()] *)
Definition constructor : Instance :=
  {| mt_suites := [];
     currentSuite := None;
     results := {| passed := 0; failed := 0; skipped := 0; total := 0;
                   duration := 0; suites := [] |} |}.

(* --------------------------------------------------------------------- *)
(** *** Registration *)
(* --------------------------------------------------------------------- *)

Record Options : Type := {
  opt_skip : option bool;
  opt_only : option bool;
  opt_timeout : option N
}.

Definition noOptions : Options :=
  {| opt_skip := None; opt_only := None; opt_timeout := None |}.

(** [flag || false] *)
Definition orFalse (flag : option bool) : bool :=
  match flag with Some b => b | None => false end.

(** [options.timeout || 5000]: zero is falsy. *)
Definition orDefaultTimeout (t : option N) : N :=
  match t with
  | Some 0%N | None => 5000%N
  | Some ms => ms
  end.

Definition pushTest (t : Test) (s : Suite) : Suite :=
  mkSuite (suite_name s) (suite_tests s ++ [t]) (suite_beforeEach s)
          (suite_afterEach s) (suite_beforeAll s) (suite_afterAll s)
          (suite_nested s).

Definition pushNested (child : Suite) (s : Suite) : Suite :=
  mkSuite (suite_name s) (suite_tests s) (suite_beforeEach s)
          (suite_afterEach s) (suite_beforeAll s) (suite_afterAll s)
          (suite_nested s ++ [child]).

Definition withCurrent (mt : Instance) (c : option Suite) : Instance :=
  {| mt_suites := mt_suites mt; currentSuite := c; results := results mt |}.

(** [it(name, fn, options = {})] *)
Definition it (name : string) (fn : Body) (options : Options) (mt : Instance)
  : Instance * Outcome unit :=
  match currentSuite mt with
  | None => (mt, Throw (ThrownError "Tests must be defined inside a describe block"))
  | Some suite =>
      (withCurrent mt (Some (pushTest
         {| test_name := name;
            test_fn := fn;
            test_skip := orFalse (opt_skip options);
            test_only := orFalse (opt_only options);
            test_timeout := orDefaultTimeout (opt_timeout options) |} suite)),
       Normal tt)
  end.

(** [test(name, fn, options = {})] *)
Definition test (name : string) (fn : Body) (options : Options) (mt : Instance)
  : Instance * Outcome unit :=
  it name fn options mt.

(** [skip(name, fn)] *)
Definition skip (name : string) (fn : Body) (mt : Instance) : Instance * Outcome unit :=
  it name fn {| opt_skip := Some true; opt_only := None; opt_timeout := None |} mt.

(** [only(name, fn)] *)
Definition only (name : string) (fn : Body) (mt : Instance) : Instance * Outcome unit :=
  it name fn {| opt_skip := None; opt_only := Some true; opt_timeout := None |} mt.

(** [beforeEach(fn)]: [if (this.currentSuite) { ...push(fn) }], no else. *)
Definition beforeEach (fn : Hook) (mt : Instance) : Instance * Outcome unit :=
  match currentSuite mt with
  | Some s =>
      (withCurrent mt (Some
         (mkSuite (suite_name s) (suite_tests s) (suite_beforeEach s ++ [fn])
                  (suite_afterEach s) (suite_beforeAll s) (suite_afterAll s)
                  (suite_nested s))), Normal tt)
  | None => (mt, Normal tt)
  end.

(** [afterEach(fn)] *)
Definition afterEach (fn : Hook) (mt : Instance) : Instance * Outcome unit :=
  match currentSuite mt with
  | Some s =>
      (withCurrent mt (Some
         (mkSuite (suite_name s) (suite_tests s) (suite_beforeEach s)
                  (suite_afterEach s ++ [fn]) (suite_beforeAll s) (suite_afterAll s)
                  (suite_nested s))), Normal tt)
  | None => (mt, Normal tt)
  end.

(** [beforeAll(fn)] *)
Definition beforeAll (fn : Hook) (mt : Instance) : Instance * Outcome unit :=
  match currentSuite mt with
  | Some s =>
      (withCurrent mt (Some
         (mkSuite (suite_name s) (suite_tests s) (suite_beforeEach s)
                  (suite_afterEach s) (suite_beforeAll s ++ [fn]) (suite_afterAll s)
                  (suite_nested s))), Normal tt)
  | None => (mt, Normal tt)
  end.

(** [afterAll(fn)] *)
Definition afterAll (fn : Hook) (mt : Instance) : Instance * Outcome unit :=
  match currentSuite mt with
  | Some s =>
      (withCurrent mt (Some
         (mkSuite (suite_name s) (suite_tests s) (suite_beforeEach s)
                  (suite_afterEach s) (suite_beforeAll s) (suite_afterAll s ++ [fn])
                  (suite_nested s))), Normal tt)
  | None => (mt, Normal tt)
  end.

(** The callback given to [describe], as the sequence of registration calls
    it makes. *)
#[warnings="-register-all"]
Inductive Decl : Type :=
| CallIt (name : string) (fn : Body) (options : Options)
| CallBeforeEach (fn : Hook)
| CallAfterEach (fn : Hook)
| CallBeforeAll (fn : Hook)
| CallAfterAll (fn : Hook)
| CallDescribe (name : string) (body : list Decl)
| Raise (e : Thrown).

(** Statements in sequence, up to the first that throws. *)
Section Sequence.
Variables A S : Type.
Variable step : A -> S -> S * Outcome unit.

Fixpoint inSequence (l : list A) (s : S) {struct l} : S * Outcome unit :=
  match l with
  | [] => (s, Normal tt)
  | x :: l' =>
      match step x s with
      | (s', Normal _) => inSequence l' s'
      | thrown => thrown
      end
  end.
End Sequence.
Arguments inSequence {A S} step l s.

(** One registration call; the [CallDescribe] case is [describe(name, fn)]:
    the new suite is current while [fn] runs, it is attached only when [fn]
    returns, and [finally] restores the previous suite either way. *)
Fixpoint call (d : Decl) (mt : Instance) {struct d} : Instance * Outcome unit :=
  match d with
  | CallIt name fn options => it name fn options mt
  | CallBeforeEach fn => beforeEach fn mt
  | CallAfterEach fn => afterEach fn mt
  | CallBeforeAll fn => beforeAll fn mt
  | CallAfterAll fn => afterAll fn mt
  | Raise e => (mt, Throw e)
  | CallDescribe name fn =>
      let suite := mkSuite name [] [] [] [] [] [] in
      let previousSuite := currentSuite mt in
      match inSequence call fn (withCurrent mt (Some suite)) with
      | (mt', Normal _) =>
          (* [suite] as the calls in [fn] have filled it *)
          let suite' := match currentSuite mt' with Some s => s | None => suite end in
          match previousSuite with
          | Some parent =>
              (withCurrent mt' (Some (pushNested suite' parent)), Normal tt)
          | None =>
              ({| mt_suites := mt_suites mt' ++ [suite'];
                  currentSuite := None;
                  results := results mt' |}, Normal tt)
          end
      | (mt', Throw e) => (withCurrent mt' previousSuite, Throw e)
      end
  end.

(** [describe(name, fn)] *)
Definition describe (name : string) (fn : list Decl) (mt : Instance)
  : Instance * Outcome unit :=
  call (CallDescribe name fn) mt.

(* --------------------------------------------------------------------- *)
(** *** Execution *)
(* --------------------------------------------------------------------- *)

(** [await hook()] *)
Definition awaitHook (hook : Hook) (e : Env) : Env * Completion unit :=
  match hook (world e) with
  | HookSettles ms w None => (after ms w e, Returns tt)
  | HookSettles ms w (Some error) => (after ms w e, Throws error)
  | HookPending w => ({| world := w; now := now e |}, Hangs)
  end.

(** [try { await hook() } catch (error) { console.error(..., error.message) }],
    the body of the [beforeAll], [afterAll] and [afterEach] loops. *)
Definition guarded (hook : Hook) (e : Env) : Env * Completion unit :=
  match awaitHook hook e with
  | (e', Throws error) =>
      match readMessage error with
      | Some typeError => (e', Throws typeError)
      | None => (e', Returns tt)
      end
  | settled => settled
  end.

(** [withTimeout(promise, timeout)]: [Promise.race] of the value the body
    returned against a timer that rejects after [timeout] ms.  The race
    always settles.  When the timer wins, the body is not interrupted; what
    it goes on to do in the background is outside the model.  The timer is
    taken to fire [timeout] ms after it is armed, which is what [setTimeout]
    does for delays up to 2^31-1 ms; above that the host shortens the delay
    (Node fires the timer after 1 ms), so the timer then wins earlier than
    here, with the same error. *)
Definition withTimeout (promise : Returned) (timeout : N) (e : Env)
  : Env * Settlement :=
  match promise with
  | Promise (Some (delay, w, settlement)) =>
      if (timeout <? delay)%N
      then (after timeout (world e) e, Rejects (ThrownError (timeoutMessage timeout)))
      else (after delay w e, settlement)
  | Promise None =>
      (after timeout (world e) e, Rejects (ThrownError (timeoutMessage timeout)))
  | _ => (e, Fulfils)
  end.

(** [await this.withTimeout(test.fn(), test.timeout)]: the argument
    [test.fn()] is evaluated, synchronous part included, before the timer
    is armed. *)
Definition awaitBody (t : Test) (e : Env) : Env * Completion unit :=
  let c := test_fn t (world e) in
  let e' := after (sync_ms c) (sync_world c) e in
  match returned c with
  | ThrowsSync error => (e', Throws error)
  | promise =>
      match withTimeout promise (test_timeout t) e' with
      | (e'', Fulfils) => (e'', Returns tt)
      | (e'', Rejects error) => (e'', Throws error)
      end
  end.

(** The [try] block of [runTest]. *)
Definition tryBlock (t : Test) (suite : Suite) (e : Env) : Env * Completion unit :=
  match forAwait awaitHook (suite_beforeEach suite) e with
  | (e', Returns _) => awaitBody t e'
  | stopped => stopped
  end.

(** [runTest(test, suite, depth)].  [depth] only indents console output,
    which is not modelled. *)
Definition runTest (t : Test) (suite : Suite) (e : Env) : Env * Completion TestResult :=
  let startTime := now e in
  let '(e1, tried) := tryBlock t suite e in
  let endTime := now e1 in
  let result : Completion TestResult :=
    match tried with
    | Returns _ =>
        Returns {| tr_name := test_name t; tr_passed := true;
                   tr_error := None; tr_duration := endTime - startTime |}
    | Throws error =>
        (* catch: the outcome is stored, then the error is logged *)
        match logFailure error with
        | Some typeError => Throws typeError
        | None =>
            Returns {| tr_name := test_name t; tr_passed := false;
                       tr_error := Some error; tr_duration := endTime - startTime |}
        end
    | Hangs => Hangs
    end in
  match result with
  | Hangs => (e1, Hangs)
  | _ =>
      (* finally *)
      match forAwait guarded (suite_afterEach suite) e1 with
      | (e2, Returns _) => (e2, result)
      | (e2, Throws typeError) => (e2, Throws typeError)
      | (e2, Hangs) => (e2, Hangs)
      end
  end.

(** What [runSuite] threads: the environment, [this.results] and the local
    [suiteResults]. *)
Record RunState : Type := { env : Env; report : Results }.

Definition countSkipped (sr : SuiteResults) : SuiteResults :=
  {| sr_name := sr_name sr; sr_passed := sr_passed sr; sr_failed := sr_failed sr;
     sr_skipped := S (sr_skipped sr); sr_tests := sr_tests sr |}.

Definition countResult (r : TestResult) (sr : SuiteResults) : SuiteResults :=
  {| sr_name := sr_name sr;
     sr_passed := if tr_passed r then S (sr_passed sr) else sr_passed sr;
     sr_failed := if tr_passed r then sr_failed sr else S (sr_failed sr);
     sr_skipped := sr_skipped sr;
     sr_tests := sr_tests sr ++ [r] |}.

Definition bumpSkipped (r : Results) : Results :=
  {| passed := passed r; failed := failed r; skipped := S (skipped r);
     total := S (total r); duration := duration r; suites := suites r |}.

Definition bumpResult (t : TestResult) (r : Results) : Results :=
  {| passed := if tr_passed t then S (passed r) else passed r;
     failed := if tr_passed t then failed r else S (failed r);
     skipped := skipped r;
     total := S (total r); duration := duration r; suites := suites r |}.

Definition pushSuite (sr : SuiteResults) (r : Results) : Results :=
  {| passed := passed r; failed := failed r; skipped := skipped r;
     total := total r; duration := duration r; suites := suites r ++ [sr] |}.

(** One iteration of [for (const test of suite.tests)]. *)
Definition testStep (suite : Suite) (hasOnly : bool) (t : Test)
           (s : SuiteResults * RunState) : (SuiteResults * RunState) * Completion unit :=
  let '(sr, st) := s in
  if hasOnly && negb (test_only t) then (s, Returns tt)           (* continue *)
  else if test_skip t then
    ((countSkipped sr, {| env := env st; report := bumpSkipped (report st) |}),
     Returns tt)                                                   (* continue *)
  else
    match runTest t suite (env st) with
    | (e, Returns testResult) =>
        ((countResult testResult sr,
          {| env := e; report := bumpResult testResult (report st) |}), Returns tt)
    | (e, Throws error) => ((sr, {| env := e; report := report st |}), Throws error)
    | (e, Hangs) => ((sr, {| env := e; report := report st |}), Hangs)
    end.

Definition hooksStep (hooks : list Hook) (st : RunState) : RunState * Completion unit :=
  match forAwait guarded hooks (env st) with
  | (e, c) => ({| env := e; report := report st |}, c)
  end.

(** [runSuite(suite, depth = 0)] *)
Fixpoint runSuite (suite : Suite) (st : RunState) {struct suite}
  : RunState * Completion unit :=
  let suiteResults :=
    {| sr_name := suite_name suite; sr_passed := 0; sr_failed := 0;
       sr_skipped := 0; sr_tests := [] |} in
  match hooksStep (suite_beforeAll suite) st with
  | (st1, Returns _) =>
      let hasOnly := existsb test_only (suite_tests suite) in
      match forAwait (testStep suite hasOnly) (suite_tests suite) (suiteResults, st1) with
      | ((suiteResults', st2), Returns _) =>
          match forAwait runSuite (suite_nested suite) st2 with
          | (st3, Returns _) =>
              match hooksStep (suite_afterAll suite) st3 with
              | (st4, Returns _) =>
                  ({| env := env st4; report := pushSuite suiteResults' (report st4) |},
                   Returns tt)
              | stopped => stopped
              end
          | stopped => stopped
          end
      | ((_, st2), Throws error) => (st2, Throws error)
      | ((_, st2), Hangs) => (st2, Hangs)
      end
  | stopped => stopped
  end.

(** [run()].  It returns [this.results], the object the constructor made:
    nothing in [run] replaces or clears it. *)
Definition run (mt : Instance) (e : Env) : (Instance * Env) * Completion Results :=
  let startTime := now e in
  match forAwait runSuite (mt_suites mt) {| env := e; report := results mt |} with
  | (st, Returns _) =>
      let endTime := now (env st) in
      let r := {| passed := passed (report st); failed := failed (report st);
                  skipped := skipped (report st); total := total (report st);
                  duration := endTime - startTime; suites := suites (report st) |} in
      (({| mt_suites := mt_suites mt; currentSuite := currentSuite mt; results := r |},
        env st), Returns r)
  | (st, Throws error) =>
      (({| mt_suites := mt_suites mt; currentSuite := currentSuite mt;
           results := report st |}, env st), Throws error)
  | (st, Hangs) =>
      (({| mt_suites := mt_suites mt; currentSuite := currentSuite mt;
           results := report st |}, env st), Hangs)
  end.

(* --------------------------------------------------------------------- *)
(** *** Notions used to state the properties (not in the source) *)
(* --------------------------------------------------------------------- *)

(** The report's counters add up. *)
Definition balanced (r : Results) : Prop :=
  total r = passed r + failed r + skipped r.

(** The direct tests of a node that focus mode does not exclude: all of
    them, or those marked [only] when one of them is. *)
Definition visitedTests (suite : Suite) : list Test :=
  if existsb test_only (suite_tests suite)
  then filter test_only (suite_tests suite)
  else suite_tests suite.

(** The counted tests of a tree: per node, its visited tests. *)
Fixpoint countedTests (suite : Suite) : nat :=
  List.length (visitedTests suite) + list_sum (map countedTests (suite_nested suite)).

Definition countedInTree (tree : list Suite) : nat :=
  list_sum (map countedTests tree).

(** A suite with other direct tests and everything else unchanged. *)
Definition withTests (suite : Suite) (tests : list Test) : Suite :=
  mkSuite (suite_name suite) tests (suite_beforeEach suite) (suite_afterEach suite)
          (suite_beforeAll suite) (suite_afterAll suite) (suite_nested suite).

(** The effect of hooks that all settle, one after the other. *)
Definition hookEffect (e : Env) (hook : Hook) : Env :=
  match hook (world e) with
  | HookSettles ms w _ => after ms w e
  | HookPending w => {| world := w; now := now e |}
  end.

(** A hook that settles, and throws nothing a handler cannot log. *)
Definition loggable (hook : Hook) : Prop :=
  forall w, match hook w with
            | HookSettles _ _ (Some ThrownNullish) => False
            | HookSettles _ _ _ => True
            | HookPending _ => False
            end.

(** From report [r] to report [r'], [n] more tests were counted: [total]
    went up by [n], so did the three outcome counters together, no counter
    went down, and the list of suite results only grew. *)
Definition grows (r r' : Results) (n : nat) : Prop :=
  total r' = total r + n /\
  passed r' + failed r' + skipped r' = passed r + failed r + skipped r + n /\
  passed r <= passed r' /\ failed r <= failed r' /\ skipped r <= skipped r' /\
  exists more, suites r' = (suites r ++ more)%list.

(** Whether the test loop gets past its first [continue]. *)
Definition visits (hasOnly : bool) (t : Test) : bool :=
  negb (hasOnly && negb (test_only t)).

End Runner.

Arguments inSequence {A S} step l s.
Arguments after {W}.
Arguments awaitHook {W}.
Arguments guarded {W}.
Arguments withTimeout {W}.
Arguments awaitBody {W}.
Arguments tryBlock {W}.
Arguments runTest {W}.
Arguments testStep {W}.
Arguments hooksStep {W}.
Arguments runSuite {W}.
Arguments run {W}.
Arguments it {W}.
Arguments test {W}.
Arguments skip {W}.
Arguments only {W}.
Arguments beforeEach {W}.
Arguments afterEach {W}.
Arguments beforeAll {W}.
Arguments afterAll {W}.
Arguments call {W}.
Arguments describe {W}.
Arguments pushTest {W}.
Arguments pushNested {W}.
Arguments withCurrent {W}.
Arguments visitedTests {W}.
Arguments countedTests {W}.
Arguments countedInTree {W}.
Arguments withTests {W}.
Arguments hookEffect {W}.
Arguments loggable {W}.
Arguments visits {W}.
Arguments world {W}.
Arguments now {W}.
Arguments sync_ms {W}.
Arguments sync_world {W}.
Arguments returned {W}.
Arguments test_name {W}.
Arguments test_fn {W}.
Arguments test_skip {W}.
Arguments test_only {W}.
Arguments test_timeout {W}.
Arguments suite_name {W}.
Arguments suite_tests {W}.
Arguments suite_beforeEach {W}.
Arguments suite_afterEach {W}.
Arguments suite_beforeAll {W}.
Arguments suite_afterAll {W}.
Arguments suite_nested {W}.
Arguments mt_suites {W}.
Arguments currentSuite {W}.
Arguments results {W}.
Arguments env {W}.
Arguments report {W}.
Arguments HookSettles {W}.
Arguments HookPending {W}.
Arguments ThrowsSync {W}.
Arguments Plain {W}.
Arguments Promise {W}.
Arguments mkSuite {W}.
Arguments CallIt {W}.
Arguments CallBeforeEach {W}.
Arguments CallAfterEach {W}.
Arguments CallBeforeAll {W}.
Arguments CallAfterAll {W}.
Arguments CallDescribe {W}.
Arguments Raise {W}.
Arguments constructor {W}.

End MicroTest.

(* ===================================================================== *)
(** ** Inputs used in the examples *)
(* ===================================================================== *)

Module Fixtures.
Import Js.

(** [{ x: undefined }] and [{ y: undefined }] *)
Definition onlyX : Value := VObject 1 ObjectCtor [("x", VUndefined)].
Definition onlyY : Value := VObject 2 ObjectCtor [("y", VUndefined)].

(** [class Point { constructor() { this.x = 1 } }], then
    [{ p: new Point() }] and [{ p: { x: 1 } }] *)
Definition PointCtor : nat := 7.
Definition holdsPoint : Value :=
  VObject 3 ObjectCtor [("p", VObject 4 PointCtor [("x", VNumber 1)])].
Definition holdsPlain : Value :=
  VObject 5 ObjectCtor [("p", VObject 6 ObjectCtor [("x", VNumber 1)])].

(** [{ a: 1, b: [true] }] and [{ b: [true], a: 1 }] *)
Definition ab : Value :=
  VObject 8 ObjectCtor [("a", VNumber 1); ("b", VArray 9 ArrayCtor [VBool true])].
Definition ba : Value :=
  VObject 10 ObjectCtor [("b", VArray 11 ArrayCtor [VBool true]); ("a", VNumber 1)].

(** [describe("Math", () => { it("adds", () => { expect(2 + 2).toBe(4) }) })];
    the callbacks here touch nothing, so the world is [unit]. *)
Definition bodyOf (assertion : Outcome unit) : MicroTest.Body unit :=
  fun w =>
    {| MicroTest.sync_ms := 0; MicroTest.sync_world := w;
       MicroTest.returned :=
         match assertion with
         | Normal _ => MicroTest.Plain
         | Throw e => MicroTest.ThrowsSync e
         end |}.

Definition adds : MicroTest.Body unit :=
  bodyOf (Expect.toBe (Expect.expect (VNumber (2 + 2))) (VNumber 4)).

Definition mathDecl : list (MicroTest.Decl unit) :=
  [MicroTest.CallIt "adds" adds MicroTest.noOptions].

Definition mathInstance : MicroTest.Instance unit :=
  fst (MicroTest.describe "Math" mathDecl MicroTest.constructor).

Definition start : MicroTest.Env unit := {| MicroTest.world := tt; MicroTest.now := 0 |}.






(** Hooks over a counter: the world is the number of hooks that ran to
    their end. *)
Definition bump (ms : N) : MicroTest.Hook nat :=
  fun n => MicroTest.HookSettles ms (S n) None.

Definition throwsNull : MicroTest.Hook nat :=
  fun n => MicroTest.HookSettles 0 n (Some ThrownNullish).

Definition throwsError : MicroTest.Hook nat :=
  fun n => MicroTest.HookSettles 0 n (Some (ThrownError "setup failed")).

Definition quick (ms : N) : MicroTest.Body nat :=
  fun n => {| MicroTest.sync_ms := ms; MicroTest.sync_world := n;
              MicroTest.returned := MicroTest.Plain |}.

Definition quickTest (name : string) (ms : N) (skip only : bool) : MicroTest.Test nat :=
  {| MicroTest.test_name := name; MicroTest.test_fn := quick ms;
     MicroTest.test_skip := skip; MicroTest.test_only := only;
     MicroTest.test_timeout := 5000 |}.

Definition hooked (before after : list (MicroTest.Hook nat)) : MicroTest.Suite nat :=
  MicroTest.mkSuite "hooked" [quickTest "t" 5 false false] before after [] [] [].

Definition bare_nat (name : string) : MicroTest.Suite nat :=
  MicroTest.mkSuite name [] [] [] [] [] [].

Definition zero : MicroTest.Env nat := {| MicroTest.world := 0; MicroTest.now := 0 |}.

(** Two tests, the first focused, above a child suite without markers. *)
Definition focused : MicroTest.Suite nat :=
  MicroTest.mkSuite "focused"
    [quickTest "first" 1 false true; quickTest "second" 1 false false]
    [] [] [] []
    [MicroTest.mkSuite "child"
       [quickTest "third" 1 false false; quickTest "fourth" 1 true false]
       [] [] [] [] []].

(** Two invocations of [run()] on the ["Math"] tree, the second on the
    instance as the first left it. *)
Definition firstRun := MicroTest.run mathInstance start.
Definition secondRun :=
  MicroTest.run (fst (fst firstRun)) (snd (fst firstRun)).

Definition fresh : MicroTest.RunState nat :=
  {| MicroTest.env := zero;
     MicroTest.report := MicroTest.results (@MicroTest.constructor nat) |}.

(** Bodies over the counter: every call of the body adds one. *)
Definition counts (ms : N) : MicroTest.Body nat :=
  fun n => {| MicroTest.sync_ms := ms; MicroTest.sync_world := S n;
              MicroTest.returned := MicroTest.Plain |}.

Definition countsTest (name : string) (ms : N) (skip only : bool) : MicroTest.Test nat :=
  {| MicroTest.test_name := name; MicroTest.test_fn := counts ms;
     MicroTest.test_skip := skip; MicroTest.test_only := only;
     MicroTest.test_timeout := 5000 |}.

(** The focused suite with bodies that count their calls: ["first"] is
    marked [only], ["second"] is not; the child has no marker, one test to
    run and one to skip. *)
Definition focusedTree : MicroTest.Suite nat :=
  MicroTest.mkSuite "focused"
    [countsTest "first" 1 false true; countsTest "second" 1 false false]
    [] [] [] []
    [MicroTest.mkSuite "child"
       [countsTest "third" 1 false false; countsTest "fourth" 1 true false]
       [] [] [] [] []].

(** [it("odd", () => { throw { message: "odd", stack: 42 } })] *)
Definition throwsOddStack : MicroTest.Body nat :=
  fun n => {| MicroTest.sync_ms := 0; MicroTest.sync_world := n;
              MicroTest.returned := MicroTest.ThrowsSync (ThrownOddStack "odd") |}.

Definition oddStackTest : MicroTest.Test nat :=
  {| MicroTest.test_name := "odd"; MicroTest.test_fn := throwsOddStack;
     MicroTest.test_skip := false; MicroTest.test_only := false;
     MicroTest.test_timeout := 5000 |}.

(** A promise that fulfils after [delay] ms, in a suite whose one
    [afterEach] hook returns a promise nobody settles. *)
Definition settlesAfter (delay : N) : MicroTest.Body nat :=
  fun n => {| MicroTest.sync_ms := 0; MicroTest.sync_world := n;
              MicroTest.returned :=
                MicroTest.Promise (Some (delay, S n, MicroTest.Fulfils)) |}.

Definition lateTest : MicroTest.Test nat :=
  {| MicroTest.test_name := "late"; MicroTest.test_fn := settlesAfter 200;
     MicroTest.test_skip := false; MicroTest.test_only := false;
     MicroTest.test_timeout := 100 |}.

Definition neverSettles : MicroTest.Hook nat :=
  fun n => MicroTest.HookPending n.

End Fixtures.

(* ===================================================================== *)
(** ** class Expect: further matchers *)
(* ===================================================================== *)

Module Matchers.
Import Js Expect.

(** The message of the Error a matcher throws, as the template literal the
    source builds it from. *)
Inductive Piece : Type :=
| Text (s : string)        (* literal text *)
| Json (v : Value)         (* [JSON.stringify(v)] *)
| Quoted (s : string)      (* the string [s] between double quotes *)
| Pattern.                 (* the RegExp given to the matcher, as text *)

(** What a matcher call does: it returns, it throws [new Error(message)],
    a property read inside it raises a TypeError, or (for the asynchronous
    matcher) the awaited promise never settles. *)
Inductive Verdict : Type :=
| Passes
| Fails (message : list Piece)
| RaisesTypeError
| NeverSettles.

(** [`${this.isNot ? "not " : ""}`] *)
Definition notText (negated : bool) : Piece :=
  Text (if negated then "not " else EmptyString).

(** [Boolean(v)] *)
Definition toBoolean (v : Value) : bool :=
  match v with
  | VUndefined | VNull => false
  | VBool b => b
  | VNumber x => negb (is_zero x || is_nan x)
  | VString s => negb (String.eqb s EmptyString)
  | VFunction _ | VArray _ _ _ | VObject _ _ _ => true
  end.

Definition verdict (passed : bool) (e : Expect) (what : string) : Verdict :=
  if Bool.eqb passed (isNot e)
  then Fails [Text "Expected "; Json (actual e); Text " "; notText (isNot e); Text what]
  else Passes.

Definition toBeTruthy (e : Expect) : Verdict :=
  verdict (toBoolean (actual e)) e "to be truthy".

Definition toBeFalsy (e : Expect) : Verdict :=
  verdict (negb (toBoolean (actual e))) e "to be falsy".

Definition toBeNull (e : Expect) : Verdict :=
  verdict (strictEquals (actual e) VNull) e "to be null".

Definition toBeUndefined (e : Expect) : Verdict :=
  verdict (strictEquals (actual e) VUndefined) e "to be undefined".

Definition toBeDefined (e : Expect) : Verdict :=
  verdict (negb (strictEquals (actual e) VUndefined)) e "to be defined".

(** [toHaveProperty(property, value)]; an omitted [value] is [undefined].
    [hasOwnProperty.call] throws on [null] and [undefined].  The own keys of
    arrays, strings and functions ([length], indices, [name]) are not
    modelled: on those the result is [None]. *)
Definition toHaveProperty (e : Expect) (property : string) (value : Value)
  : option Verdict :=
  match actual e with
  | VUndefined | VNull => Some RaisesTypeError
  | VArray _ _ _ | VString _ | VFunction _ => None
  | VBool _ | VNumber _ | VObject _ _ _ =>
      let hasProperty := hasOwn (actual e) property in
      if negb hasProperty && negb (isNot e)
      then Some (Fails [Text "Expected object to have property "; Quoted property])
      else if hasProperty && isNot e
      then Some (Fails [Text "Expected object not to have property "; Quoted property])
      else if negb (strictEquals value VUndefined) && hasProperty then
        let actualValue := get (actual e) property in
        let valuesMatch := deepEqual actualValue value in
        if Bool.eqb valuesMatch (isNot e)
        then Some (Fails [Text "Expected property "; Quoted property; Text " ";
                          notText (isNot e); Text "to be "; Json value;
                          Text ", but got "; Json actualValue])
        else Some Passes
      else Some Passes
  end.

(** [s.includes(sub)] *)
Fixpoint includes (s sub : string) {struct s} : bool :=
  if String.prefix sub s then true
  else match s with
       | EmptyString => false
       | String _ s' => includes s' sub
       end.

(** What a [catch (e)] clause of [toThrow] can tell about [e]: it is
    [null]/[undefined]; its [message] is a string; it has no [message]
    (a thrown string, number or plain object). *)
Inductive Caught : Type :=
| CaughtNullish
| CaughtMessage (message : string)
| CaughtNoMessage.

(** Calling [this.actual()].  For [toThrow], [ThrowsValue] is a
    synchronous throw; for [toThrowAsync] it is a throw or a rejection of
    the returned promise, which [await] turns into a throw. *)
Inductive Invocation : Type :=
| Completes
| ThrowsValue (e : Caught)
| StaysPending.            (* the returned promise never settles *)

(** The argument [expectedError]: omitted, a string, a RegExp (by what its
    [test] answers; a RegExp without the [g] and [y] flags), or anything
    else. *)
Inductive Expected : Type :=
| Omitted
| ExpectedString (s : string)
| ExpectedRegExp (test : string -> bool)
| ExpectedOther.

(** [error.message], or the TypeError of reading it off null/undefined *)
Definition messageOf (e : Caught) : option (option string) :=
  match e with
  | CaughtNullish => None
  | CaughtMessage m => Some (Some m)
  | CaughtNoMessage => Some None
  end.

(** The check of the thrown error against a string: [error.message.includes(s)]
    is a TypeError when the message is missing. *)
Definition checkIncludes (error : Caught) (s : string) : Verdict :=
  match messageOf error with
  | Some (Some m) =>
      if includes m s then Passes
      else Fails [Text "Expected error message to include "; Quoted s;
                  Text ", but got "; Quoted m]
  | _ => RaisesTypeError
  end.

Section Calls.
(** What calling the function with a given identity does. *)
Variable invoke : nat -> Invocation.

(** [toThrow(expectedError)].  A function that is invoked here is
    synchronous: [StaysPending] counts as returning (a promise). *)
Definition toThrow (e : Expect) (expectedError : Expected) : Verdict :=
  match actual e with
  | VFunction ref =>
      let caught := match invoke ref with ThrowsValue error => Some error | _ => None end in
      let thrown := match caught with Some _ => true | None => false end in
      if Bool.eqb thrown (isNot e)
      then Fails [Text "Expected function "; notText (isNot e); Text "to throw"]
      else
        match caught, expectedError with
        | Some error, ExpectedString s =>
            if String.eqb s EmptyString then Passes      (* the empty string is falsy *)
            else checkIncludes error s
        | Some error, ExpectedRegExp test =>
            match messageOf error with
            | None => RaisesTypeError
            | Some (Some m) =>
                if test m then Passes
                else Fails [Text "Expected error message to match "; Pattern;
                            Text ", but got "; Quoted m]
            | Some None =>
                if test "undefined" then Passes
                else Fails [Text "Expected error message to match "; Pattern;
                            Text ", but got "; Quoted "undefined"]
            end
        | _, _ => Passes
        end
  | _ => Fails [Text "toThrow expects a function"]
  end.

End Calls.

(** What [this.actual] is to [toThrowAsync]: a function, a Promise, or
    neither. *)
Inductive AsyncActual : Type :=
| AFunction (call : Invocation)
| APromise
| ANeither.

Section Async.
(** The message of the TypeError the engine raises when a value that is not
    a function is called. *)
Variable notAFunction : string.

(** [toThrowAsync(expectedError)].  [await this.actual()] calls
    [this.actual] also when it is a Promise; that call raises a TypeError
    inside the [try] block. *)
Definition toThrowAsync (actual : AsyncActual) (negated : bool)
           (expectedError : Expected) : Verdict :=
  match actual with
  | ANeither => Fails [Text "toThrowAsync expects an async function or promise"]
  | AFunction StaysPending => NeverSettles
  | _ =>
      let caught :=
        match actual with
        | AFunction (ThrowsValue error) => Some error
        | APromise => Some (CaughtMessage notAFunction)
        | _ => None
        end in
      let thrown := match caught with Some _ => true | None => false end in
      if Bool.eqb thrown negated
      then Fails [Text "Expected async function "; notText negated; Text "to throw"]
      else
        match caught, expectedError with
        | Some error, ExpectedString s =>
            if String.eqb s EmptyString then Passes
            else checkIncludes error s
        | _, _ => Passes
        end
  end.

End Async.

End Matchers.

(* ===================================================================== *)
(** ** Further notions about the runner (not in the source) *)
(* ===================================================================== *)

Module Notions.
Import MicroTest.

Section Runner.
Variable W : Type.

(** The suite object [describe] starts from. *)
Definition newSuite (name : string) : Suite W := mkSuite name [] [] [] [] [] [].

(** The suite a registration call leaves behind when it is made inside
    suite [s] and nothing throws: what the call appends, and for a nested
    [describe] the child its callback builds. *)
Fixpoint register (d : Decl W) (s : Suite W) {struct d} : Suite W :=
  match d with
  | CallIt name fn options =>
      pushTest {| test_name := name;
                  test_fn := fn;
                  test_skip := orFalse (opt_skip options);
                  test_only := orFalse (opt_only options);
                  test_timeout := orDefaultTimeout (opt_timeout options) |} s
  | CallBeforeEach fn =>
      mkSuite (suite_name s) (suite_tests s) (suite_beforeEach s ++ [fn])
              (suite_afterEach s) (suite_beforeAll s) (suite_afterAll s)
              (suite_nested s)
  | CallAfterEach fn =>
      mkSuite (suite_name s) (suite_tests s) (suite_beforeEach s)
              (suite_afterEach s ++ [fn]) (suite_beforeAll s) (suite_afterAll s)
              (suite_nested s)
  | CallBeforeAll fn =>
      mkSuite (suite_name s) (suite_tests s) (suite_beforeEach s)
              (suite_afterEach s) (suite_beforeAll s ++ [fn]) (suite_afterAll s)
              (suite_nested s)
  | CallAfterAll fn =>
      mkSuite (suite_name s) (suite_tests s) (suite_beforeEach s)
              (suite_afterEach s) (suite_beforeAll s) (suite_afterAll s ++ [fn])
              (suite_nested s)
  | CallDescribe name body =>
      pushNested (fold_left (fun acc d' => register d' acc) body (newSuite name)) s
  | Raise _ => s
  end.

(** The tree a [describe(name, ...)] declares. *)
Definition declared (name : string) (body : list (Decl W)) : Suite W :=
  fold_left (fun acc d => register d acc) body (newSuite name).

(** Whether a callback throws by itself somewhere. *)
Fixpoint raises (d : Decl W) : bool :=
  match d with
  | Raise _ => true
  | CallDescribe _ body => existsb raises body
  | _ => false
  end.

(** The first value a sequence of statements throws, if one does. *)
Section FirstThrown.
Variable A : Type.
Variable thrown : A -> option Thrown.

Fixpoint firstThrown (l : list A) : option Thrown :=
  match l with
  | [] => None
  | x :: l' =>
      match thrown x with
      | Some error => Some error
      | None => firstThrown l'
      end
  end.
End FirstThrown.

(** What a registration call made inside a suite throws: the value of the
    first [throw] statement reached, in the callbacks of nested
    [describe]s too. *)
Fixpoint thrownBy (d : Decl W) : option Thrown :=
  match d with
  | Raise error => Some error
  | CallDescribe _ body => firstThrown (Decl W) thrownBy body
  | _ => None
  end.

(** A thrown value the [catch] clause of [runTest] logs without throwing:
    not [null] or [undefined], and no truthy stack without a [split]
    method. *)
Definition printable (error : Thrown) : Prop :=
  match error with
  | ThrownNullish => False
  | ThrownOddStack _ => False
  | _ => True
  end.

(** A body that neither throws nor rejects with a value the [catch] clause
    cannot log. *)
Definition tameBody (fn : Body W) : Prop :=
  forall w, match returned (fn w) with
            | ThrowsSync error => printable error
            | Promise (Some (_, _, Rejects error)) => printable error
            | _ => True
            end.

(** A [beforeEach] hook that settles, and throws nothing the [catch] clause
    of [runTest] cannot log. *)
Definition tameHook (hook : Hook W) : Prop :=
  forall w, match hook w with
            | HookSettles _ _ (Some error) => printable error
            | HookSettles _ _ None => True
            | HookPending _ => False
            end.

(** A tree all of whose hooks settle, whose [beforeEach] hooks and bodies
    are tame, and whose other hooks throw loggable values. *)
#[warnings="-register-all"]
Inductive Tame : Suite W -> Prop :=
| Tame_suite name tests bE aE bA aA nested :
    Forall (fun t => tameBody (test_fn t)) tests ->
    Forall tameHook bE -> Forall loggable aE ->
    Forall loggable bA -> Forall loggable aA ->
    Forall Tame nested ->
    Tame (mkSuite name tests bE aE bA aA nested).

(** The names of the suites of a tree, children before their parent. *)
Fixpoint postorder (suite : Suite W) : list string :=
  (flat_map postorder (suite_nested suite) ++ [suite_name suite])%list.

(** Every test of a tree. *)
Fixpoint allTests (suite : Suite W) : list (Test W) :=
  (suite_tests suite ++ flat_map allTests (suite_nested suite))%list.

(** The suite with other [beforeEach] and [afterEach] hooks. *)
Definition withEachHooks (suite : Suite W) (bE aE : list (Hook W)) : Suite W :=
  mkSuite (suite_name suite) (suite_tests suite) bE aE
          (suite_beforeAll suite) (suite_afterAll suite) (suite_nested suite).

End Runner.

Arguments newSuite {W}.
Arguments register {W}.
Arguments declared {W}.
Arguments raises {W}.
Arguments firstThrown {A}.
Arguments thrownBy {W}.
Arguments tameBody {W}.
Arguments tameHook {W}.
Arguments Tame {W}.
Arguments postorder {W}.
Arguments withEachHooks {W}.
Arguments allTests {W}.

(** A [try] block that ends, by returning or by throwing something the
    [catch] clause can log. *)
Definition contained (c : MicroTest.Completion unit) : Prop :=
  match c with
  | Hangs => False
  | Throws error => printable error
  | Returns _ => True
  end.


(** The counters of the report are the sums over the suite results it
    lists. *)
Definition itemised (r : Results) : Prop :=
  passed r = list_sum (map sr_passed (suites r)) /\
  failed r = list_sum (map sr_failed (suites r)) /\
  skipped r = list_sum (map sr_skipped (suites r)).

(** Between report [r] and report [r'], suite results with the given names
    were appended, in that order, and each counter went up by the sum of
    the appended entries. *)
Definition pushed (names : list string) (r r' : Results) : Prop :=
  exists more,
    suites r' = (suites r ++ more)%list /\
    map sr_name more = names /\
    passed r' = passed r + list_sum (map sr_passed more) /\
    failed r' = failed r + list_sum (map sr_failed more) /\
    skipped r' = skipped r + list_sum (map sr_skipped more).

End Notions.


(* ===================================================================== *)
(** ** Further inputs used in the examples *)
(* ===================================================================== *)

Module MoreFixtures.
Import Js MicroTest Fixtures.

(** A callback that registers a test and then throws. *)
Definition brokenDecl : list (Decl nat) :=
  [CallIt "a" (quick 0) noOptions; Raise (ThrownError "boom")].

(** A callback with hooks, tests and a nested [describe]. *)
Definition nestedDecl : list (Decl nat) :=
  [CallBeforeEach (bump 1);
   CallIt "a" (quick 2) noOptions;
   CallDescribe "inner"
     [CallIt "b" (quick 3)
        {| opt_skip := None; opt_only := None; opt_timeout := Some 0%N |}];
   CallIt "c" (quick 0) {| opt_skip := Some true; opt_only := None; opt_timeout := None |};
   CallAfterAll throwsError].

Definition treeInstance : Instance nat :=
  fst (describe "outer" nestedDecl constructor).

(** An instance whose only suite has an [afterEach] hook that throws
    [null]. *)
Definition nullInstance : Instance nat :=
  {| mt_suites := [hooked [] [throwsNull; bump 7]];
     currentSuite := None;
     results := results (@constructor nat) |}.

(** A suite without direct tests, with each-hooks, above a child with a
    test. *)
Definition parentOnly : Suite nat :=
  mkSuite "parent" [] [throwsNull] [bump 9] [] []
          [mkSuite "child" [quickTest "t" 1 false false] [] [] [] [] []].


(** Behaviours of the functions [expect] wraps in the examples: function 1
    throws [new Error("boom: file missing")], the others return. *)
Definition behaviours (ref : nat) : Matchers.Invocation :=
  match ref with
  | 1 => Matchers.ThrowsValue (Matchers.CaughtMessage "boom: file missing")
  | _ => Matchers.Completes
  end.

End MoreFixtures.

(* ===================================================================== *)
(** ** Properties of the assertion library *)
(* ===================================================================== *)

Module ExpectFacts.
Import Js Expect Fixtures.

(** Structural induction on values, through arrays and objects. *)
Lemma Value_nested_ind (P : Value -> Prop) :
  (forall v, typeof v <> "object" \/ v = VNull -> P v) ->
  (forall r c items, Forall P items -> P (VArray r c items)) ->
  (forall r c props, Forall (fun entry => P (snd entry)) props ->
                     P (VObject r c props)) ->
  forall v, P v.
Proof.
  intros Hprim Harr Hobj.
  fix IH 1.
  intros [ | | b | x | s | r | r c items | r c props ];
    try (apply Hprim; (left; discriminate) || (right; reflexivity)).
  - apply Harr.
    induction items as [ | v items IHitems ]; constructor; [ apply IH | exact IHitems ].
  - apply Hobj.
    induction props as [ | [k v] props IHprops ]; constructor;
      [ apply IH | exact IHprops ].
Qed.

(** [every] accepts a list exactly when the callback accepts each element
    at its index. *)
Lemma every_from_true {A} (f : A -> nat -> bool) (l : list A) (start : nat) :
  every_from f l start = true <->
  forall n x, nth_error l n = Some x -> f x (start + n) = true.
Proof.
  revert start.
  induction l as [ | y l IH ]; intros start; simpl.
  - split; [ intros _ [ | n ] x H; discriminate | reflexivity ].
  - destruct (f y start) eqn:Hy.
    + rewrite IH. split.
      * intros H [ | n ] x Hn; simpl in Hn.
        -- injection Hn as <-. now rewrite Nat.add_0_r.
        -- replace (start + S n) with (S start + n) by lia. now apply H.
      * intros H n x Hn. replace (S start + n) with (start + S n) by lia.
        now apply H.
    + split; [ discriminate | ].
      intros H. rewrite <- Hy, <- (Nat.add_0_r start). now apply H.
Qed.

Lemma every_true_In {A} (f : A -> bool) (l : list A) :
  every (fun x _ => f x) l = true <-> forall x, In x l -> f x = true.
Proof.
  unfold every. rewrite every_from_true. split.
  - intros H x Hx. apply In_nth_error in Hx as [n Hn]. exact (H n x Hn).
  - intros H n x Hn. apply H. exact (nth_error_In _ _ Hn).
Qed.

(** What a successful [deepEqual] on an array went through. *)
Lemma deepEqual_array_inv r c items b :
  deepEqual (VArray r c items) b = true ->
  strictEquals (VArray r c items) b = true \/
  (isArray b = true /\ List.length items = length_of b /\
   forall i v, nth_error items i = Some v -> deepEqual v (at_index b i) = true).
Proof.
  destruct b as [ | | ? | ? | ? | ? | r' c' items' | r' c' props' ];
    cbn; try discriminate.
  destruct (Nat.eqb r r'); [ now left | ].
  destruct (Nat.eqb (List.length items) (List.length items')) eqn:Hlen;
    cbn; [ | discriminate ].
  intros H. right. apply Nat.eqb_eq in Hlen.
  repeat split; [ exact Hlen | ].
  unfold every in H. rewrite every_from_true in H. exact H.
Qed.

(** What a successful [deepEqual] on a non-array object went through. *)
Lemma deepEqual_object_inv r c props b :
  deepEqual (VObject r c props) b = true ->
  strictEquals (VObject r c props) b = true \/
  (isArray b = false /\ typeof b = "object" /\ looseNull b = false /\
   List.length props = List.length (keys b) /\
   forall k v, In (k, v) props -> deepEqual v (get b k) = true).
Proof.
  destruct b as [ | | ? | ? | ? | ? | r' c' items' | r' c' props' ];
    cbn; try discriminate.
  destruct (Nat.eqb r r'); [ now left | ].
  rewrite !length_map.
  destruct (Nat.eqb (List.length props) (List.length props')) eqn:Hlen;
    cbn; [ | discriminate ].
  intros H. right. apply Nat.eqb_eq in Hlen.
  repeat split; [ exact Hlen | ].
  intros k v Hin.
  apply (proj1 (every_true_In
           (fun entry : string * Value =>
              let '(key, value) := entry in
              deepEqual value (get (VObject r' c' props') key)) props) H (k, v) Hin).
Qed.

(** Outside arrays and objects [deepEqual] is [===]. *)
Lemma deepEqual_primitive a b :
  typeof a <> "object" \/ a = VNull ->
  deepEqual a b = true -> strictEquals a b = true.
Proof.
  intros Ha H.
  destruct (strictEquals a b) eqn:Hs; [ reflexivity | ].
  destruct Ha as [Ha | ->].
  - destruct a; try (exfalso; apply Ha; reflexivity);
      destruct b; cbn in H, Hs; try rewrite Hs in H; cbn in H;
      try discriminate; congruence.
  - destruct b; cbn in H; discriminate.
Qed.

(** Reading an own property of a well-formed object. *)
Lemma get_own r c props k v :
  NoDup (map fst props) -> In (k, v) props -> get (VObject r c props) k = v.
Proof.
  intros Hnd Hin. cbn.
  enough (assoc k props = Some v) as -> by reflexivity.
  induction props as [ | [k' v'] props IH ]; [ contradiction | ].
  cbn in *. inversion Hnd as [ | ? ? Hnotin Hnd' ]; subst.
  destruct Hin as [Heq | Hin].
  - injection Heq as -> ->. now rewrite String.eqb_refl.
  - destruct (String.eqb_spec k k') as [-> | _]; [ | now apply IH ].
    exfalso. apply Hnotin. apply (in_map fst) in Hin. exact Hin.
Qed.

(** On a well-formed object the scan over the entries is the scan of the
    source over [Object.keys(a)], reading [a[key]] and [b[key]]. *)
Lemma object_scan_by_keys r c props b :
  NoDup (map fst props) ->
  every (fun entry _ => let '(key, value) := entry in deepEqual value (get b key))
        props =
  every (fun key _ => deepEqual (get (VObject r c props) key) (get b key))
        (keys (VObject r c props)).
Proof.
  intros Hnd. apply eq_iff_eq_true.
  pose proof (every_true_In
                (fun entry : string * Value =>
                   let '(key, value) := entry in deepEqual value (get b key))
                props) as Hl.
  pose proof (every_true_In
                (fun key => deepEqual (get (VObject r c props) key) (get b key))
                (keys (VObject r c props))) as Hr.
  cbv beta in Hl, Hr. rewrite Hl, Hr. cbn [keys]. split.
  - intros H k Hk. apply in_map_iff in Hk as ([k0 v] & <- & Hin). cbn [fst].
    rewrite (get_own r c props k0 v Hnd Hin). exact (H _ Hin).
  - intros H [k v] Hin.
    rewrite <- (get_own r c props k v Hnd Hin).
    apply H. apply (in_map fst) in Hin. exact Hin.
Qed.

(** The container kinds agree at every level a passing [deepEqual] went
    through. *)
Lemma deepEqual_SameKinds a :
  forall b, deepEqual a b = true -> SameKinds a b.
Proof.
  induction a as [ v Hv | r c items IH | r c props IH ] using Value_nested_ind;
    intros b H.
  - apply SK_identical. now apply deepEqual_primitive.
  - apply deepEqual_array_inv in H as [H | (Harr & _ & Hitems)];
      [ now apply SK_identical | ].
    apply SK_array; [ exact Harr | ].
    intros i v Hi. rewrite Forall_forall in IH.
    apply IH; [ exact (nth_error_In _ _ Hi) | now apply Hitems ].
  - apply deepEqual_object_inv in H as [H | (Harr & Hty & Hnull & _ & Hprops)];
      [ now apply SK_identical | ].
    apply SK_object; try assumption.
    intros k v Hin. rewrite Forall_forall in IH.
    apply (IH (k, v) Hin). now apply Hprops.
Qed.

Lemma deepEqual_identical a b : strictEquals a b = true -> deepEqual a b = true.
Proof.
  intros H. destruct a; cbn in *; rewrite ?H; try reflexivity;
    destruct b; try discriminate; cbn in *; now rewrite H.
Qed.

(** Only [undefined] is deep-equal to [undefined]. *)
Lemma deepEqual_undefined_right v : deepEqual v VUndefined = true -> v = VUndefined.
Proof. destruct v; cbn; solve [ reflexivity | discriminate ]. Qed.

Lemma assoc_Some k props x : assoc k props = Some x -> In k (map fst props).
Proof.
  induction props as [ | [k' v'] props IH ]; cbn; [ discriminate | ].
  destruct (String.eqb_spec k k') as [-> | _]; [ now left | ].
  intros H. right. now apply IH.
Qed.

(** Where C7 does hold: when the first object is well formed, none of its
    own values is [undefined] and none of its own keys is ["constructor"], a
    passing [deepEqual] means the two objects have the same own keys. *)
Lemma deepEqual_same_keys r c props b :
  NoDup (keys (VObject r c props)) ->
  strictEquals (VObject r c props) b = false ->
  (forall k v, In (k, v) props -> v <> VUndefined /\ k <> "constructor") ->
  deepEqual (VObject r c props) b = true ->
  forall k, In k (keys (VObject r c props)) <-> In k (keys b).
Proof.
  intros Hnd Hid Hdef H.
  apply deepEqual_object_inv in H as [H | (Harr & Hty & Hnull & Hlen & Hprops)];
    [ congruence | ].
  destruct b as [ | | ? | ? | ? | ? | r' c' items' | r' c' props' ];
    try discriminate.
  cbn [keys] in *.
  assert (incl (map fst props) (map fst props')) as Hincl.
  { intros k Hk. apply in_map_iff in Hk as ([k0 v] & <- & Hin). cbn [fst].
    specialize (Hprops _ _ Hin). destruct (Hdef _ _ Hin) as [Hv Hk].
    cbn [get] in Hprops.
    destruct (assoc k0 props') as [x | ] eqn:Ha.
    - exact (assoc_Some _ _ _ Ha).
    - apply String.eqb_neq in Hk. rewrite Hk in Hprops.
      now apply deepEqual_undefined_right in Hprops. }
  intros k. split; [ apply Hincl | ].
  apply (NoDup_length_incl Hnd); [ | exact Hincl ].
  rewrite !length_map. rewrite length_map in Hlen. lia.
Qed.

(** Sanity: key order does not matter to [toEqual]. *)
Example toEqual_reordered_keys : toEqual (expect ab) ba = Normal tt.
Proof. reflexivity. Qed.

(** Sanity: a nested array is not a nested object. *)
Example toEqual_array_vs_object :
  deepEqual (VObject 1 ObjectCtor [("k", VArray 2 ArrayCtor [])])
            (VObject 3 ObjectCtor [("k", VObject 4 ObjectCtor [])]) = false.
Proof. reflexivity. Qed.

(** C7, at the failing input [expect({ x: undefined }).toEqual({ y: undefined })]:
    the two objects have different own keys, and the matcher passes.  The
    source compares the number of keys and then reads each key of the
    first object off the second, where a missing key reads as [undefined]. *)
Theorem toEqual_accepts_different_keys :
  keys onlyX = ["x"] /\ keys onlyY = ["y"] /\
  hasOwn onlyY "x" = false /\
  deepEqual onlyX onlyY = true /\
  toEqual (expect onlyX) onlyY = Normal tt.
Proof. repeat split. Qed.

(** C8, counterexample: [expect({ p: new Point() }).toStrictEqual({ p: { x: 1 } })]
    passes although the values under [p] were built by different
    constructors. *)
Lemma toStrictEqual_passes_on_nested_constructor_mismatch :
  toStrictEqual (expect holdsPoint) holdsPlain = Normal tt /\
  strictEquals (get (get holdsPoint "p") "constructor")
               (get (get holdsPlain "p") "constructor") = false.
Proof. split; reflexivity. Qed.

(** C8, as the code has it: [toStrictEqual] passes only if the two values
    are deep-equal, are identical or have the same constructor and the same
    container kind at the top level, and have the same container kind at
    every level the comparison descends to.  Constructors below the top
    level are not compared. *)
Theorem toStrictEqual_passes_only_if a b :
  toStrictEqual (expect a) b = Normal tt ->
  deepEqual a b = true /\
  SameKinds a b /\
  (strictEquals a b = true \/
   (strictEquals (get a "constructor") (get b "constructor") = true /\
    isArray a = isArray b)).
Proof.
  unfold toStrictEqual, strictEqual, expect; cbn [actual isNot].
  destruct (strictEquals a b) eqn:Hid.
  - intros _. pose proof (deepEqual_identical a b Hid) as Hd.
    split; [ exact Hd | split; [ now apply SK_identical | now left ] ].
  - destruct (negb (typeof a =? typeof b)); [ discriminate | ].
    destruct (negb (typeof a =? "object")); [ discriminate | ].
    destruct (Bool.eqb (isArray a) (isArray b)) eqn:Hkind; cbn; [ | discriminate ].
    destruct (looseNull a || looseNull b); [ discriminate | ].
    destruct (strictEquals (get a "constructor") (get b "constructor")) eqn:Hc;
      cbn; [ | discriminate ].
    destruct (deepEqual a b) eqn:Hd; cbn; [ | discriminate ].
    intros _. apply Bool.eqb_prop in Hkind.
    split; [ reflexivity | split; [ now apply deepEqual_SameKinds | right; now split ] ].
Qed.

(** Two separate objects of the same shape and constructor pass. *)
Lemma toStrictEqual_passes_only_if_witness :
  toStrictEqual (expect ab) (VObject 12 ObjectCtor
                               [("a", VNumber 1); ("b", VArray 13 ArrayCtor [VBool true])])
    = Normal tt /\
  deepEqual ab (VObject 12 ObjectCtor
                  [("a", VNumber 1); ("b", VArray 13 ArrayCtor [VBool true])]) = true.
Proof.
  split; [ reflexivity | ].
  apply (toStrictEqual_passes_only_if ab
           (VObject 12 ObjectCtor
              [("a", VNumber 1); ("b", VArray 13 ArrayCtor [VBool true])])).
  reflexivity.
Defined.

(** C10: [expect(NaN).toBe(NaN)] passes, because [Object.is] holds NaN equal
    to itself, and [expect(NaN).toEqual(NaN)] throws, because [deepEqual]
    compares primitives with [===]. *)
Theorem toBe_and_toEqual_disagree_on_NaN :
  objectIs NaN NaN = true /\
  strictEquals NaN NaN = false /\
  toBe (expect NaN) NaN = Normal tt /\
  deepEqual NaN NaN = false /\
  toEqual (expect NaN) NaN = Throw (ThrownExpectation NaN false "to equal" NaN).
Proof. repeat split. Qed.

End ExpectFacts.

(* ===================================================================== *)
(** ** Properties of the runner *)
(* ===================================================================== *)

Module RunnerFacts.
Import MicroTest Notions Fixtures.

Section Loops.
Variables A S : Type.
Variable body : A -> S -> S * Completion unit.

(** A preorder every iteration respects, however it ends, relates the
    state before the loop to the state after it. *)
Lemma forAwait_chain (R : S -> S -> Prop) :
  (forall s, R s s) ->
  (forall s1 s2 s3, R s1 s2 -> R s2 s3 -> R s1 s3) ->
  (forall x s s' c, body x s = (s', c) -> R s s') ->
  forall l s s' c, forAwait body l s = (s', c) -> R s s'.
Proof.
  intros Hrefl Htrans Hbody l.
  induction l as [ | x l IH ]; intros s s' c H; simpl in H.
  - injection H as <- _. apply Hrefl.
  - destruct (body x s) as [s1 [ u | err | ]] eqn:Hx.
    + exact (Htrans _ _ _ (Hbody _ _ _ _ Hx) (IH _ _ _ H)).
    + injection H as <- _. exact (Hbody _ _ _ _ Hx).
    + injection H as <- _. exact (Hbody _ _ _ _ Hx).
Qed.

Variable proj : S -> Results.
Variable weight : A -> nat.

(** If iteration [x] counts [weight x] tests when it returns, and no more
    when it does not, the loop counts the sum of the weights. *)
Lemma forAwait_grows (l : list A) :
  Forall (fun x => forall s s' c, body x s = (s', c) ->
            exists n, grows (proj s) (proj s') n /\ n <= weight x /\
                      (c = Returns tt -> n = weight x)) l ->
  forall s s' c, forAwait body l s = (s', c) ->
    exists n, grows (proj s) (proj s') n /\ n <= list_sum (map weight l) /\
              (c = Returns tt -> n = list_sum (map weight l)).
Proof.
  induction 1 as [ | x l Hx _ IH ]; intros s s' c H; simpl in H.
  - injection H as <- <-. exists 0. simpl. split; [ | now split ].
    unfold grows. repeat split; try lia. exists []. now rewrite app_nil_r.
  - destruct (body x s) as [s1 [ u | err | ]] eqn:Hb;
      destruct (Hx _ _ _ Hb) as (n & Hg & Hle & Hret).
    + destruct (IH _ _ _ H) as (m & Hg' & Hle' & Hret').
      specialize (Hret ltac:(now destruct u)).
      exists (n + m). simpl. split; [ | split ].
      * unfold grows in *. destruct Hg as (? & ? & ? & ? & ? & [more Hmore]).
        destruct Hg' as (? & ? & ? & ? & ? & [more' Hmore']).
        repeat split; try lia. exists (more ++ more')%list.
        now rewrite Hmore', Hmore, app_assoc.
      * lia.
      * intros Hc. specialize (Hret' Hc). lia.
    + injection H as <- <-. exists n. simpl.
      split; [ exact Hg | split; [ lia | discriminate ] ].
    + injection H as <- <-. exists n. simpl.
      split; [ exact Hg | split; [ lia | discriminate ] ].
Qed.

End Loops.

Section Runner.
Variable W : Type.
Implicit Types (suite : Suite W) (t : Test W) (st : RunState W) (e : Env W).

(** Structural induction on suites, through the nested suites. *)
Lemma Suite_nested_ind (P : Suite W -> Prop) :
  (forall name tests bE aE bA aA nested,
     Forall P nested -> P (mkSuite name tests bE aE bA aA nested)) ->
  forall suite, P suite.
Proof.
  intros Hnode.
  fix IH 1.
  intros [name tests bE aE bA aA nested].
  apply Hnode.
  induction nested as [ | child nested IHnested ]; constructor;
    [ apply IH | exact IHnested ].
Qed.

Lemma grows_refl (r : Results) : grows r r 0.
Proof.
  unfold grows. repeat split; try lia. exists []. now rewrite app_nil_r.
Qed.

Lemma grows_balanced (r r' : Results) n :
  grows r r' n -> balanced r -> balanced r'.
Proof. unfold grows, balanced. intros (? & ? & _). lia. Qed.

(** The hook loops leave the report alone. *)
Lemma hooksStep_report hooks st st' c :
  hooksStep hooks st = (st', c) -> report st' = report st.
Proof.
  unfold MicroTest.hooksStep.
  destruct (forAwait _ hooks (env st)) as [e c'].
  now injection 1 as <- _.
Qed.

(** One iteration of the test loop counts one test if it gets past the
    focus check, and none otherwise. *)
Lemma testStep_grows suite hasOnly t s s' c :
  testStep suite hasOnly t s = (s', c) ->
  exists n, grows (report (snd s)) (report (snd s')) n /\
            n <= (if visits hasOnly t then 1 else 0) /\
            (c = Returns tt -> n = if visits hasOnly t then 1 else 0).
Proof.
  destruct s as [sr st]. unfold MicroTest.testStep, visits.
  destruct (hasOnly && negb (test_only t)); cbn [negb].
  - injection 1 as <- <-. exists 0. split; [ apply grows_refl | now split ].
  - destruct (test_skip t).
    + injection 1 as <- <-. exists 1. cbn.
      split; [ | now split ].
      unfold grows; cbn. repeat split; try lia. exists []. now rewrite app_nil_r.
    + destruct (runTest t suite (env st)) as [e [ r | err | ]];
        injection 1 as <- <-; cbn.
      * exists 1. split; [ | now split ].
        unfold grows; cbn. destruct (tr_passed r);
          (repeat split; try lia; exists []; now rewrite app_nil_r).
      * exists 0. split; [ apply grows_refl | split; [ lia | discriminate ] ].
      * exists 0. split; [ apply grows_refl | split; [ lia | discriminate ] ].
Qed.

Lemma visited_weight suite :
  List.length (visitedTests suite) =
  list_sum (map (fun t => if visits (existsb (test_only) (suite_tests suite)) t
                          then 1 else 0) (suite_tests suite)).
Proof.
  unfold visitedTests, visits.
  destruct (existsb (test_only) (suite_tests suite)); cbn [andb].
  - induction (suite_tests suite) as [ | t l IH ]; [ reflexivity | ].
    cbn. destruct (test_only t); cbn; now rewrite IH.
  - induction (suite_tests suite) as [ | t l IH ]; [ reflexivity | ].
    cbn. now rewrite IH.
Qed.

(** The body of [runSuite], one layer. *)
Lemma runSuite_eq suite st :
  runSuite suite st =
  match hooksStep (suite_beforeAll suite) st with
  | (st1, Returns _) =>
      match forAwait (testStep suite (existsb (test_only) (suite_tests suite)))
                     (suite_tests suite)
                     ({| sr_name := suite_name suite; sr_passed := 0; sr_failed := 0;
                         sr_skipped := 0; sr_tests := [] |}, st1) with
      | ((suiteResults', st2), Returns _) =>
          match forAwait runSuite (suite_nested suite) st2 with
          | (st3, Returns _) =>
              match hooksStep (suite_afterAll suite) st3 with
              | (st4, Returns _) =>
                  ({| env := env st4;
                      report := pushSuite suiteResults' (report st4) |}, Returns tt)
              | stopped => stopped
              end
          | stopped => stopped
          end
      | ((_, st2), Throws error) => (st2, Throws error)
      | ((_, st2), Hangs) => (st2, Hangs)
      end
  | stopped => stopped
  end.
Proof. destruct suite; reflexivity. Qed.

Lemma grows_trans (r1 r2 r3 : Results) n m :
  grows r1 r2 n -> grows r2 r3 m -> grows r1 r3 (n + m).
Proof.
  unfold grows.
  intros (? & ? & ? & ? & ? & [more Hmore]) (? & ? & ? & ? & ? & [more' Hmore']).
  repeat split; try lia.
  exists (more ++ more')%list. now rewrite Hmore', Hmore, app_assoc.
Qed.

Lemma grows_push sr (r : Results) : grows r (pushSuite sr r) 0.
Proof. unfold grows; cbn. repeat split; try lia. now exists [sr]. Qed.

(** [runSuite] counts the counted tests of the subtree when it returns; when
    it is cut short it has counted some of them, each once. *)
Lemma runSuite_grows suite :
  forall st st' c, runSuite suite st = (st', c) ->
    exists n, grows (report st) (report st') n /\
              n <= countedTests suite /\
              (c = Returns tt -> n = countedTests suite).
Proof.
  induction suite as [name tests bE aE bA aA nested IH] using Suite_nested_ind.
  intros st st' c. rewrite runSuite_eq.
  cbn [suite_beforeAll suite_tests suite_nested suite_afterAll suite_name countedTests].
  rewrite visited_weight. cbn [suite_tests].
  set (hasOnly := existsb test_only tests).
  set (w1 := list_sum (map (fun t => if visits hasOnly t then 1 else 0) tests)).
  set (w2 := list_sum (map countedTests nested)).
  destruct (hooksStep bA st) as [st1 c1] eqn:H1.
  pose proof (hooksStep_report _ _ _ _ H1) as R1.
  destruct c1 as [ u1 | err | ];
    [ | injection 1 as <- <-; exists 0; rewrite R1;
        (split; [ apply grows_refl | split; [ lia | discriminate ] ]) .. ].
  destruct (forAwait (testStep _ hasOnly) tests _) as [[sr st2] c2] eqn:H2.
  destruct (forAwait_grows _ _ _ (fun s => report (snd s))
              (fun t => if visits hasOnly t then 1 else 0) tests
              ltac:(apply Forall_forall; intros t _ s s' c0; apply testStep_grows)
              _ _ _ H2) as (n1 & G1 & L1 & E1).
  cbn [snd] in G1. rewrite R1 in G1. fold w1 in L1, E1.
  destruct c2 as [ u2 | err | ];
    [ | injection 1 as <- <-; exists n1;
        (split; [ exact G1 | split; [ lia | discriminate ] ]) .. ].
  specialize (E1 ltac:(now destruct u2)).
  destruct (forAwait runSuite nested st2) as [st3 c3] eqn:H3.
  destruct (forAwait_grows _ _ _ (@report W) countedTests nested IH _ _ _ H3)
    as (n2 & G2 & L2 & E2).
  fold w2 in L2, E2.
  pose proof (grows_trans _ _ _ _ _ G1 G2) as G12.
  destruct c3 as [ u3 | err | ];
    [ | injection 1 as <- <-; exists (n1 + n2);
        (split; [ exact G12 | split; [ lia | discriminate ] ]) .. ].
  specialize (E2 ltac:(now destruct u3)).
  destruct (hooksStep aA st3) as [st4 c4] eqn:H4.
  pose proof (hooksStep_report _ _ _ _ H4) as R4.
  destruct c4 as [ u4 | err | ]; injection 1 as <- <-; cbn [report];
    rewrite ?R4; exists (n1 + n2).
  - split; [ | split; [ lia | intros _; lia ] ].
    replace (n1 + n2) with (n1 + n2 + 0) by lia.
    exact (grows_trans _ _ _ _ _ G12 (grows_push sr _)).
  - split; [ exact G12 | split; [ lia | discriminate ] ].
  - split; [ exact G12 | split; [ lia | discriminate ] ].
Qed.

(** [run] adds the counted tests of the tree to the report it found. *)
Lemma run_grows (mt : Instance W) e mt' e' c :
  run mt e = ((mt', e'), c) ->
  mt_suites mt' = mt_suites mt /\
  exists n, grows (results mt) (results mt') n /\
            n <= countedInTree (mt_suites mt) /\
            forall r, c = Returns r ->
                      r = results mt' /\ n = countedInTree (mt_suites mt).
Proof.
  unfold MicroTest.run.
  destruct (forAwait runSuite (mt_suites mt) _) as [st c0] eqn:H.
  destruct (forAwait_grows _ _ _ (@report W) countedTests (mt_suites mt)
              ltac:(apply Forall_forall; intros suite _; apply runSuite_grows)
              _ _ _ H) as (n & G & L & E).
  cbn [report] in G. fold (countedInTree (mt_suites mt)) in L, E.
  destruct c0 as [ u | err | ]; injection 1 as <- <- <-; cbn [mt_suites results];
    (split; [ reflexivity | ]); exists n.
  - split; [ | split; [ exact L | ] ].
    + unfold grows in *; cbn. exact G.
    + intros r [= <-]. split; [ reflexivity | ]. apply E. now destruct u.
  - split; [ exact G | split; [ exact L | discriminate ] ].
  - split; [ exact G | split; [ exact L | discriminate ] ].
Qed.

(** C1: a report whose counters add up (the constructor's does) still adds
    up after [run], however [run] ends: [total = passed + failed + skipped].
    When [run] resolves, [total] has gone up by exactly the number of counted
    tests of the tree, and so have the three outcome counters together:
    every counted test went to one outcome counter and once to [total]. *)
Theorem run_total_is_sum_of_outcomes (mt : Instance W) e :
  balanced (results mt) ->
  balanced (results (fst (fst (run mt e)))) /\
  forall r, snd (run mt e) = Returns r ->
    total r = passed r + failed r + skipped r /\
    total r = total (results mt) + countedInTree (mt_suites mt) /\
    passed r + failed r + skipped r =
      passed (results mt) + failed (results mt) + skipped (results mt)
      + countedInTree (mt_suites mt).
Proof.
  intros Hbal.
  destruct (run mt e) as [[mt' e'] c] eqn:Hrun. cbn [fst snd].
  destruct (run_grows _ _ _ _ _ Hrun) as (_ & n & G & _ & E).
  pose proof (grows_balanced _ _ _ G Hbal) as Hbal'.
  split; [ exact Hbal' | ].
  intros r Hr. destruct (E r Hr) as [-> ->].
  unfold grows in G. unfold balanced in Hbal'. lia.
Qed.

(* --------------------------------------------------------------------- *)
(** *** Running one test *)
(* --------------------------------------------------------------------- *)

Lemma guarded_loggable (hook : Hook W) e :
  loggable hook -> guarded hook e = (hookEffect e hook, Returns tt).
Proof.
  intros H. specialize (H (world e)).
  unfold MicroTest.guarded, MicroTest.awaitHook, hookEffect.
  destruct (hook (world e)) as [ms w [ [ | m | a n rel x | | m ] | ] | w ];
    cbn; solve [ reflexivity | contradiction ].
Qed.

(** A guarded loop over hooks that settle and throw loggable values runs
    every hook, in order, and returns. *)
Lemma guarded_loop_loggable (hooks : list (Hook W)) :
  Forall loggable hooks ->
  forall e, forAwait guarded hooks e = (fold_left hookEffect hooks e, Returns tt).
Proof.
  induction 1 as [ | hook hooks Hh _ IH ]; intros e; cbn.
  - reflexivity.
  - rewrite (guarded_loggable hook e Hh). apply IH.
Qed.

(** The clock never runs backwards. *)
Lemma awaitHook_clock (hook : Hook W) e e' c :
  awaitHook hook e = (e', c) -> (now e <= now e')%N.
Proof.
  unfold MicroTest.awaitHook.
  destruct (hook (world e)) as [ms w [err | ] | w]; injection 1 as <- _; cbn; lia.
Qed.

Lemma guarded_clock (hook : Hook W) e e' c :
  guarded hook e = (e', c) -> (now e <= now e')%N.
Proof.
  unfold MicroTest.guarded.
  destruct (awaitHook hook e) as [e1 c1] eqn:H1.
  apply awaitHook_clock in H1.
  destruct c1 as [ u | err | ]; [ | destruct (readMessage err) | ];
    now injection 1 as <- _.
Qed.

Lemma withTimeout_clock (p : Returned W) timeout e e' s :
  withTimeout p timeout e = (e', s) -> (now e <= now e')%N.
Proof.
  unfold MicroTest.withTimeout.
  destruct p as [err | | [[[delay w] st] | ]];
    [ | | destruct (timeout <? delay)%N | ]; injection 1 as <- _; cbn; lia.
Qed.

Lemma awaitBody_clock t e e' c :
  awaitBody t e = (e', c) -> (now e <= now e')%N.
Proof.
  unfold MicroTest.awaitBody.
  set (call := test_fn t (world e)).
  set (e1 := after (sync_ms call) (sync_world call) e).
  assert (now e <= now e1)%N as H1 by (cbn; lia).
  destruct (returned call) as [err | | settles ] eqn:Hret.
  - now injection 1 as <- _.
  - destruct (withTimeout Plain (test_timeout t) e1) as [e2 s] eqn:H2.
    apply withTimeout_clock in H2.
    destruct s; injection 1 as <- _; lia.
  - destruct (withTimeout (Promise settles) (test_timeout t) e1) as [e2 s] eqn:H2.
    apply withTimeout_clock in H2.
    destruct s; injection 1 as <- _; lia.
Qed.

Lemma beforeEach_loop_clock (hooks : list (Hook W)) e e' c :
  forAwait awaitHook hooks e = (e', c) -> (now e <= now e')%N.
Proof.
  apply (forAwait_chain _ _ awaitHook (fun a b => (now a <= now b)%N)).
  - intros; lia.
  - intros; lia.
  - intros hook a b c0. apply awaitHook_clock.
Qed.

(** [runTest], by the way its [try] block ended. *)
Lemma runTest_eq t suite e :
  runTest t suite e =
  let e1 := fst (tryBlock t suite e) in
  match snd (tryBlock t suite e) with
  | Hangs => (e1, Hangs)
  | tried =>
      let result :=
        match tried with
        | Returns _ =>
            Returns {| tr_name := test_name t; tr_passed := true;
                       tr_error := None; tr_duration := now e1 - now e |}
        | Throws error =>
            match logFailure error with
            | Some typeError => Throws typeError
            | None => Returns {| tr_name := test_name t; tr_passed := false;
                                 tr_error := Some error;
                                 tr_duration := now e1 - now e |}
            end
        | Hangs => Hangs
        end in
      match forAwait guarded (suite_afterEach suite) e1 with
      | (e2, Returns _) => (e2, result)
      | (e2, Throws typeError) => (e2, Throws typeError)
      | (e2, Hangs) => (e2, Hangs)
      end
  end.
Proof.
  unfold MicroTest.runTest.
  destruct (tryBlock t suite e) as [e1 [ u | err | ]]; cbn [fst snd];
    [ | destruct (logFailure err) | ]; reflexivity.
Qed.

(** A result carries the name of its test. *)
Lemma runTest_name t suite e e' r :
  runTest t suite e = (e', Returns r) -> tr_name r = test_name t.
Proof.
  rewrite runTest_eq. cbv zeta.
  destruct (snd (tryBlock t suite e)) as [ u | err | ];
    [ | destruct (logFailure err) | ];
    try (destruct (forAwait guarded (suite_afterEach suite) _) as [e2 [ u2 | err2 | ]]);
    intros [= <- <-] || discriminate; reflexivity.
Qed.

(** With hooks that settle and throw loggable values, every [afterEach]
    hook runs, in order, after the [try] block, whether the block returned
    or threw something the [catch] clause can log, and the outcome of the
    block is what is recorded. *)
Lemma afterEach_hooks_all_run t suite e :
  Forall loggable (suite_afterEach suite) ->
  snd (tryBlock t suite e) <> Hangs ->
  snd (tryBlock t suite e) <> Throws ThrownNullish ->
  (forall m, snd (tryBlock t suite e) <> Throws (ThrownOddStack m)) ->
  exists r,
    runTest t suite e =
      (fold_left hookEffect (suite_afterEach suite) (fst (tryBlock t suite e)),
       Returns r) /\
    tr_error r = match snd (tryBlock t suite e) with
                 | Throws error => Some error
                 | _ => None
                 end /\
    tr_passed r = match snd (tryBlock t suite e) with
                  | Returns _ => true
                  | _ => false
                  end.
Proof.
  intros Hlog Hhang Hnull Hodd. rewrite runTest_eq. cbv zeta.
  rewrite (guarded_loop_loggable _ Hlog).
  destruct (snd (tryBlock t suite e)) as [ u | err | ].
  - eexists. repeat split.
  - destruct err as [ | m | a n rel x | | m ];
      [ now contradiction Hnull | | | | now contradiction (Hodd m) ];
      cbn; eexists; repeat split.
  - now contradiction Hhang.
Qed.

(** A [beforeEach] hook that throws ends the [try] block with what it
    threw: the body is not called. *)
Lemma beforeEach_failure_is_caught t suite e eb error :
  forAwait awaitHook (suite_beforeEach suite) e = (eb, Throws error) ->
  tryBlock t suite e = (eb, Throws error).
Proof. unfold MicroTest.tryBlock. now intros ->. Qed.

(* --------------------------------------------------------------------- *)
(** *** The claims about one test *)
(* --------------------------------------------------------------------- *)


(** C9, as the code has it: the recorded duration runs from the top of
    [runTest], before the [beforeEach] hooks, to the end of the [try] block
    (the settled race, or the first throw).  It is the time spent in the
    [beforeEach] hooks plus the time spent in the body; the [afterEach]
    hooks run after it is taken. *)
Theorem duration_spans_beforeEach_and_body t suite e e' r :
  runTest t suite e = (e', Returns r) ->
  let eb := fst (forAwait awaitHook (suite_beforeEach suite) e) in
  let e1 := fst (tryBlock t suite e) in
  tr_duration r = ((now eb - now e) + (now e1 - now eb))%N /\
  (now e <= now eb <= now e1)%N /\
  e' = fst (forAwait guarded (suite_afterEach suite) e1).
Proof.
  intros Hrun eb e1.
  assert (now e <= now eb <= now e1)%N as Hclock.
  { subst eb e1. unfold MicroTest.tryBlock.
    destruct (forAwait awaitHook (suite_beforeEach suite) e) as [eb c] eqn:Hb.
    pose proof (beforeEach_loop_clock _ _ _ _ Hb) as H1. cbn [fst].
    destruct c as [ u | err | ]; cbn [fst]; try lia.
    destruct (awaitBody t eb) as [e1 c1] eqn:H2.
    apply awaitBody_clock in H2. cbn [fst]. lia. }
  rewrite runTest_eq in Hrun. cbv zeta in Hrun. fold e1 in Hrun.
  destruct (forAwait guarded (suite_afterEach suite) e1) as [e2 c2] eqn:Hafter.
  cbn [fst].
  destruct (snd (tryBlock t suite e)) as [ u | err | ];
    [ | destruct (logFailure err) | ];
    destruct c2 as [ u2 | err2 | ]; try discriminate;
    injection Hrun as <- <-; cbn [tr_duration];
    (split; [ lia | split; [ exact Hclock | reflexivity ] ]).
Qed.

(* --------------------------------------------------------------------- *)
(** *** Focus mode *)
(* --------------------------------------------------------------------- *)

(** Under focus mode the loop over the tests is the loop over the focused
    ones. *)
Lemma focus_loop_filter suite (tests : list (Test W)) :
  forall s,
    forAwait (testStep suite true) tests s =
    forAwait (testStep suite true) (filter test_only tests) s.
Proof.
  induction tests as [ | t tests IH ]; intros s; [ reflexivity | ].
  cbn [filter forAwait].
  destruct (test_only t) eqn:Honly.
  - cbn [forAwait]. destruct (testStep suite true t s) as [s1 [ u | err | ]];
      [ apply IH | reflexivity | reflexivity ].
  - replace (testStep suite true t s) with (s, @Returns unit tt).
    + apply IH.
    + destruct s as [sr st]. unfold MicroTest.testStep. now rewrite Honly.
Qed.

Lemma existsb_filter_self {A} (f : A -> bool) (l : list A) :
  existsb f (filter f l) = existsb f l.
Proof.
  induction l as [ | x l IH ]; [ reflexivity | ].
  cbn. destruct (f x) eqn:Hx; cbn; now rewrite ?Hx, IH.
Qed.

Lemma testStep_eq suite hasOnly t sr st :
  testStep suite hasOnly t (sr, st) =
  if hasOnly && negb (test_only t) then ((sr, st), Returns tt)
  else if test_skip t then
    ((countSkipped sr, {| env := env st; report := bumpSkipped (report st) |}),
     Returns tt)
  else
    match runTest t suite (env st) with
    | (e, Returns testResult) =>
        ((countResult testResult sr,
          {| env := e; report := bumpResult testResult (report st) |}), Returns tt)
    | (e, Throws error) => ((sr, {| env := e; report := report st |}), Throws error)
    | (e, Hangs) => ((sr, {| env := e; report := report st |}), Hangs)
    end.
Proof. reflexivity. Qed.

(** What the test loop leaves in [suiteResults] when it returns. *)
Lemma test_loop_suiteResults suite hasOnly (tests : list (Test W)) :
  forall sr st sr' st',
    forAwait (testStep suite hasOnly) tests (sr, st) = ((sr', st'), Returns tt) ->
    sr_name sr' = sr_name sr /\
    sr_passed sr' + sr_failed sr' + sr_skipped sr' =
      sr_passed sr + sr_failed sr + sr_skipped sr
      + List.length (filter (visits hasOnly) tests) /\
    sr_skipped sr' =
      sr_skipped sr + List.length (filter test_skip (filter (visits hasOnly) tests)) /\
    map tr_name (sr_tests sr') =
      (map tr_name (sr_tests sr)
       ++ map test_name (filter (fun t => negb (test_skip t))
                                (filter (visits hasOnly) tests)))%list.
Proof.
  induction tests as [ | t tests IH ]; intros sr st sr' st' H; cbn [forAwait] in H.
  - injection H as <- <-. cbn. rewrite app_nil_r. repeat split; lia.
  - rewrite testStep_eq in H.
    assert (hasOnly && negb (test_only t) = negb (visits hasOnly t)) as Hv
      by (unfold visits; now rewrite negb_involutive).
    rewrite Hv in H. cbn [filter].
    destruct (visits hasOnly t); cbn [negb] in H.
    + cbn [filter]. destruct (test_skip t) eqn:Hskip; cbn [negb filter].
      * destruct (IH _ _ _ _ H) as (Hn & Hc & Hs & Ht). cbn in *.
        repeat split; try assumption; lia.
      * destruct (runTest t suite (env st)) as [e1 [ r | err | ]] eqn:Hrun;
          try discriminate.
        destruct (IH _ _ _ _ H) as (Hn & Hc & Hs & Ht).
        pose proof (runTest_name _ _ _ _ _ Hrun) as Hname.
        cbn in *. rewrite Ht, map_app, <- app_assoc. cbn. rewrite Hname.
        destruct (tr_passed r); repeat split; try assumption; lia.
    + exact (IH _ _ _ _ H).
Qed.

Lemma visitedTests_filter suite :
  visitedTests suite =
  filter (visits (existsb test_only (suite_tests suite))) (suite_tests suite).
Proof.
  unfold visitedTests, visits.
  destruct (existsb test_only (suite_tests suite)); cbn [andb negb].
  - apply filter_ext. intros t. now rewrite negb_involutive.
  - induction (suite_tests suite) as [ | t l IH ]; cbn; congruence.
Qed.

(** On tests that are all marked [only] the focus check changes nothing. *)
Lemma focus_loop_marked suite (tests : list (Test W)) :
  Forall (fun t => test_only t = true) tests ->
  forall s,
    forAwait (testStep suite true) tests s = forAwait (testStep suite false) tests s.
Proof.
  induction 1 as [ | t tests Honly _ IH ]; intros s; [ reflexivity | ].
  cbn [forAwait]. destruct s as [sr st]. rewrite !testStep_eq, Honly. cbn [negb andb].
  destruct (test_skip t); [ apply IH | ].
  destruct (runTest t suite (env st)) as [e1 [ r | err | ]];
    [ apply IH | reflexivity | reflexivity ].
Qed.

(** The loop over the direct tests is the loop, without any focus check,
    over the visited tests. *)
Lemma test_loop_visited suite (node : Suite W) :
  forall s,
    forAwait (testStep suite (existsb test_only (suite_tests node))) (suite_tests node) s =
    forAwait (testStep suite false) (visitedTests node) s.
Proof.
  intros s. unfold visitedTests.
  destruct (existsb test_only (suite_tests node)); [ | reflexivity ].
  rewrite focus_loop_filter. apply focus_loop_marked.
  apply Forall_forall. intros t Ht. now apply filter_In in Ht.
Qed.

(** C4: focus mode is decided per suite node, from its direct tests alone.
    (1) If a direct test of the node is marked [only], running the node is
    running it without its unmarked direct tests: they are neither executed
    nor counted, and nothing else changes.
    (2) Running a node is: its [beforeAll] hooks; then its visited tests
    (all direct tests, or the marked ones when there is one), each skipped
    or run as in a node without markers; then every nested suite, run by
    [runSuite] itself, which decides its focus from its own direct tests;
    then the [afterAll] hooks and the push of the node's results.  The
    markers of a node reach neither its nested suites nor anything outside
    it.
    (3) When [runSuite] returns it has pushed the node's own results last:
    as many outcomes as the node has visited tests, the skipped ones counted
    as skipped and the others executed and listed in declaration order. *)
Theorem focus_mode_is_per_suite suite st :
  (existsb test_only (suite_tests suite) = true ->
   runSuite suite st =
   runSuite (withTests suite (filter test_only (suite_tests suite))) st) /\
  runSuite suite st =
    match hooksStep (suite_beforeAll suite) st with
    | (st1, Returns _) =>
        match forAwait (testStep suite false) (visitedTests suite)
                       ({| sr_name := suite_name suite; sr_passed := 0; sr_failed := 0;
                           sr_skipped := 0; sr_tests := [] |}, st1) with
        | ((suiteResults, st2), Returns _) =>
            match forAwait runSuite (suite_nested suite) st2 with
            | (st3, Returns _) =>
                match hooksStep (suite_afterAll suite) st3 with
                | (st4, Returns _) =>
                    ({| env := env st4;
                        report := pushSuite suiteResults (report st4) |}, Returns tt)
                | stopped => stopped
                end
            | stopped => stopped
            end
        | ((_, st2), Throws error) => (st2, Throws error)
        | ((_, st2), Hangs) => (st2, Hangs)
        end
    | stopped => stopped
    end /\
  (forall st', runSuite suite st = (st', Returns tt) ->
     exists earlier sr,
       suites (report st') = (earlier ++ [sr])%list /\
       sr_name sr = suite_name suite /\
       sr_passed sr + sr_failed sr + sr_skipped sr =
         List.length (visitedTests suite) /\
       sr_skipped sr = List.length (filter test_skip (visitedTests suite)) /\
       map tr_name (sr_tests sr) =
         map test_name (filter (fun t => negb (test_skip t)) (visitedTests suite))).
Proof.
  split; [ | split ].
  - intros Hfocus. rewrite !runSuite_eq.
    destruct suite as [name tests bE aE bA aA nested].
    cbn [withTests suite_beforeAll suite_tests suite_nested suite_afterAll
         suite_name suite_beforeEach suite_afterEach] in *.
    rewrite existsb_filter_self, Hfocus.
    destruct (hooksStep bA st) as [st1 [ u | err | ]]; try reflexivity.
    rewrite focus_loop_filter. reflexivity.
  - rewrite runSuite_eq.
    destruct (hooksStep (suite_beforeAll suite) st) as [st1 [ u | err | ]];
      try reflexivity.
    now rewrite (test_loop_visited suite suite).
  - intros st'. rewrite runSuite_eq, visitedTests_filter.
    destruct (hooksStep (suite_beforeAll suite) st) as [st1 [ u1 | err | ]];
      try discriminate.
    destruct (forAwait (testStep suite _) (suite_tests suite) _)
      as [[sr st2] [ u2 | err | ]] eqn:Hloop; try discriminate.
    destruct u2. apply test_loop_suiteResults in Hloop as (Hn & Hc & Hs & Ht).
    destruct (forAwait runSuite (suite_nested suite) st2) as [st3 [ u3 | err | ]];
      try discriminate.
    destruct (hooksStep (suite_afterAll suite) st3) as [st4 [ u4 | err | ]];
      try discriminate.
    injection 1 as <-. cbn in *.
    exists (suites (report st4)), sr. repeat split; try assumption; lia.
Qed.

(* --------------------------------------------------------------------- *)
(** *** Registration *)
(* --------------------------------------------------------------------- *)

(** Structural induction on registration calls, through [describe]
    callbacks. *)
Lemma Decl_nested_ind (P : Decl W -> Prop) :
  (forall name fn options, P (CallIt name fn options)) ->
  (forall fn, P (CallBeforeEach fn)) -> (forall fn, P (CallAfterEach fn)) ->
  (forall fn, P (CallBeforeAll fn)) -> (forall fn, P (CallAfterAll fn)) ->
  (forall name body, Forall P body -> P (CallDescribe name body)) ->
  (forall error, P (Raise error)) ->
  forall d, P d.
Proof.
  intros Hit HbE HaE HbA HaA Hdescribe Hraise.
  fix IH 1.
  intros [ name fn options | fn | fn | fn | fn | name body | error ];
    [ apply Hit | apply HbE | apply HaE | apply HbA | apply HaA | | apply Hraise ].
  apply Hdescribe.
  induction body as [ | d body IHbody ]; constructor; [ apply IH | exact IHbody ].
Qed.

(** What registration never does: it leaves the report alone, and it
    leaves a suite current exactly when one was current before. *)
Definition keeps (mt mt' : Instance W) : Prop :=
  results mt' = results mt /\
  (currentSuite mt = None <-> currentSuite mt' = None).

Lemma keeps_refl (mt : Instance W) : keeps mt mt.
Proof. unfold keeps. tauto. Qed.

Lemma keeps_trans (a b c : Instance W) : keeps a b -> keeps b c -> keeps a c.
Proof. unfold keeps. intros [-> ?] [-> ?]. tauto. Qed.

Lemma inSequence_keeps (step : Decl W -> Instance W -> Instance W * Outcome unit)
      (l : list (Decl W)) :
  Forall (fun d => forall mt, keeps mt (fst (step d mt))) l ->
  forall mt, keeps mt (fst (inSequence step l mt)).
Proof.
  induction 1 as [ | d l Hd _ IH ]; intros mt; cbn.
  - apply keeps_refl.
  - specialize (Hd mt). destruct (step d mt) as [mt1 [ u | err ]]; cbn in *.
    + exact (keeps_trans _ _ _ Hd (IH mt1)).
    + exact Hd.
Qed.

Lemma call_keeps (d : Decl W) : forall mt, keeps mt (fst (call d mt)).
Proof.
  induction d as [ name fn options | fn | fn | fn | fn | name body IH | error ]
    using Decl_nested_ind; intros mt.
  1-5: cbn; unfold it, beforeEach, afterEach, beforeAll, afterAll;
       destruct (currentSuite mt) eqn:Hc; cbn; unfold keeps; cbn;
       rewrite ?Hc.
  1-10: (split; [ reflexivity | split; congruence ]).
  - cbn [call].
    pose proof (inSequence_keeps call body IH
                  (withCurrent mt (Some (mkSuite name [] [] [] [] [] [])))) as [Hr Hc].
    destruct (inSequence call body _) as [mt' [ u | err ]]; cbn [fst] in *.
    + destruct (currentSuite mt) as [parent | ] eqn:Hprev; unfold keeps; cbn;
        rewrite Hr, ?Hprev; split; try reflexivity; split; congruence.
    + unfold keeps; cbn. rewrite Hr. tauto.
  - apply keeps_refl.
Qed.

(** Every instance built from [new MicroTest()] by registration calls has
    the constructor's report, whose counters add up. *)
Lemma registered_instance_is_balanced (l : list (Decl W)) :
  balanced (results (fst (inSequence call l constructor))).
Proof.
  destruct (inSequence_keeps call l
              ltac:(apply Forall_forall; intros d _; apply call_keeps)
              constructor) as [-> _].
  reflexivity.
Qed.

(* --------------------------------------------------------------------- *)
(** *** Registration outside a suite *)
(* --------------------------------------------------------------------- *)

(** C5, as the code has it: while no suite is current, [it] and [test]
    throw [Error("Tests must be defined inside a describe block")] and
    register nothing; [beforeEach], [afterEach], [beforeAll] and [afterAll]
    return normally and register nothing. *)
Theorem registration_outside_a_suite (mt : Instance W) :
  currentSuite mt = None ->
  (forall name fn options,
     it name fn options mt =
       (mt, Throw (ThrownError "Tests must be defined inside a describe block")) /\
     test name fn options mt =
       (mt, Throw (ThrownError "Tests must be defined inside a describe block"))) /\
  (forall fn : Hook W,
     beforeEach fn mt = (mt, Normal tt) /\ afterEach fn mt = (mt, Normal tt) /\
     beforeAll fn mt = (mt, Normal tt) /\ afterAll fn mt = (mt, Normal tt)).
Proof.
  intros Hnone.
  unfold test, it, beforeEach, afterEach, beforeAll, afterAll.
  rewrite Hnone. now repeat split.
Qed.

(* --------------------------------------------------------------------- *)
(** *** What a run appends to the report *)
(* --------------------------------------------------------------------- *)

(** The test loop moves the report's counters and the suite's counters by
    the same amounts and does not touch the list of suite results. *)
Lemma test_loop_in_step suite hasOnly (tests : list (Test W)) s s' c :
  forAwait (testStep suite hasOnly) tests s = (s', c) ->
  suites (report (snd s')) = suites (report (snd s)) /\
  passed (report (snd s')) + sr_passed (fst s) =
    passed (report (snd s)) + sr_passed (fst s') /\
  failed (report (snd s')) + sr_failed (fst s) =
    failed (report (snd s)) + sr_failed (fst s') /\
  skipped (report (snd s')) + sr_skipped (fst s) =
    skipped (report (snd s)) + sr_skipped (fst s').
Proof.
  apply (forAwait_chain _ _ (testStep suite hasOnly)
           (fun a b =>
              suites (report (snd b)) = suites (report (snd a)) /\
              passed (report (snd b)) + sr_passed (fst a) =
                passed (report (snd a)) + sr_passed (fst b) /\
              failed (report (snd b)) + sr_failed (fst a) =
                failed (report (snd a)) + sr_failed (fst b) /\
              skipped (report (snd b)) + sr_skipped (fst a) =
                skipped (report (snd a)) + sr_skipped (fst b))).
  - intros a. repeat split; lia.
  - intros a b c0 (Hs & Hp & Hf & Hk) (Hs' & Hp' & Hf' & Hk').
    repeat split; [ congruence | lia | lia | lia ].
  - intros t [sr st] [sr1 st1] c0. rewrite testStep_eq.
    destruct (hasOnly && negb (test_only t));
      [ intros [= <- <-]; repeat split; lia | ].
    destruct (test_skip t);
      [ intros [= <- <- _]; cbn; repeat split; lia | ].
    destruct (runTest t suite (env st)) as [e1 [ r | err | ]];
      intros [= <- <- _]; cbn; try (repeat split; lia).
    destruct (tr_passed r); repeat split; lia.
Qed.

Lemma pushed_nil (r : Results) : pushed [] r r.
Proof. exists []. cbn. rewrite app_nil_r. repeat split; lia. Qed.

Lemma pushed_app names names' (r1 r2 r3 : Results) :
  pushed names r1 r2 -> pushed names' r2 r3 -> pushed (names ++ names') r1 r3.
Proof.
  intros (more & Hs & Hn & Hp & Hf & Hk) (more' & Hs' & Hn' & Hp' & Hf' & Hk').
  exists (more ++ more')%list.
  rewrite !map_app, !list_sum_app, Hs', Hs, app_assoc, Hn, Hn'.
  repeat split; lia.
Qed.

Lemma suite_loop_pushes (body : Suite W -> RunState W -> RunState W * Completion unit)
      (l : list (Suite W)) :
  Forall (fun suite => forall st st', body suite st = (st', Returns tt) ->
            pushed (postorder suite) (report st) (report st')) l ->
  forall st st', forAwait body l st = (st', Returns tt) ->
    pushed (flat_map postorder l) (report st) (report st').
Proof.
  induction 1 as [ | suite l Hs _ IH ]; intros st st' H; cbn in H.
  - injection H as <-. apply pushed_nil.
  - destruct (body suite st) as [st1 [ [] | err | ]] eqn:Hb; try discriminate.
    cbn [flat_map]. exact (pushed_app _ _ _ _ _ (Hs _ _ Hb) (IH _ _ H)).
Qed.

(** When [runSuite] returns it has appended one result per suite of the
    subtree, children before their parent, and the report's counters have
    gone up by the sums of those results. *)
Lemma runSuite_pushes suite :
  forall st st', runSuite suite st = (st', Returns tt) ->
    pushed (postorder suite) (report st) (report st').
Proof.
  induction suite as [name tests bE aE bA aA nested IH] using Suite_nested_ind.
  intros st st'. rewrite runSuite_eq.
  cbn [suite_beforeAll suite_tests suite_nested suite_afterAll suite_name postorder].
  destruct (hooksStep bA st) as [st1 [ u1 | err | ]] eqn:H1; try discriminate.
  apply hooksStep_report in H1.
  destruct (forAwait (testStep _ _) tests _) as [[sr st2] [ u2 | err | ]] eqn:H2;
    try discriminate.
  destruct u2.
  pose proof (proj1 (test_loop_suiteResults _ _ _ _ _ _ _ H2)) as Hname.
  cbn in Hname.
  apply test_loop_in_step in H2 as (Hs2 & Hp2 & Hf2 & Hk2). cbn in Hs2, Hp2, Hf2, Hk2.
  destruct (forAwait runSuite nested st2) as [st3 [ u3 | err | ]] eqn:H3;
    try discriminate.
  destruct u3. apply (suite_loop_pushes runSuite nested IH) in H3.
  destruct (hooksStep aA st3) as [st4 [ u4 | err | ]] eqn:H4; try discriminate.
  apply hooksStep_report in H4.
  intros [= <-]. cbn [report].
  destruct H3 as (more & Hs & Hn & Hp & Hf & Hk).
  exists (more ++ [sr])%list.
  rewrite !map_app, !list_sum_app. cbn. rewrite H4, Hs, Hs2, H1, Hn, app_assoc.
  rewrite H1 in Hp2, Hf2, Hk2.
  repeat split; solve [ lia | now rewrite Hname ].
Qed.

Lemma run_pushes mt e mt' e' r :
  run mt e = ((mt', e'), Returns r) ->
  pushed (flat_map postorder (mt_suites mt)) (results mt) r.
Proof.
  unfold MicroTest.run.
  destruct (forAwait runSuite (mt_suites mt) _) as [st [ [] | err | ]] eqn:Hloop;
    try discriminate.
  apply (suite_loop_pushes runSuite (mt_suites mt)
           ltac:(apply Forall_forall; intros suite _; apply runSuite_pushes)) in Hloop.
  intros [= _ _ <-]. exact Hloop.
Qed.

(* --------------------------------------------------------------------- *)
(** *** Running the tree twice *)
(* --------------------------------------------------------------------- *)

(** C2, as the code has it: [run] returns the instance's one results
    object, which only the constructor initialises.  Each invocation that
    resolves adds the counted tests of the tree to the counters it finds and
    appends to the list it finds one suite result per suite of the tree,
    children first, moving each counter by the sum over what it appended.
    After two invocations on a tree with N counted tests, [total] is N more
    than after the first, which is N more than before it, and the list holds
    what was there, then the results of the first run, then those of the
    second: every suite is listed twice. *)
Theorem run_twice_accumulates (mt : Instance W) e mt1 e1 r1 e1' mt2 e2 r2 :
  run mt e = ((mt1, e1), Returns r1) ->
  run mt1 e1' = ((mt2, e2), Returns r2) ->
  mt_suites mt1 = mt_suites mt /\
  results mt1 = r1 /\
  total r1 = total (results mt) + countedInTree (mt_suites mt) /\
  total r2 = total r1 + countedInTree (mt_suites mt) /\
  pushed (flat_map postorder (mt_suites mt)) (results mt) r1 /\
  pushed (flat_map postorder (mt_suites mt)) r1 r2 /\
  exists first second,
    suites r2 = (suites (results mt) ++ first ++ second)%list /\
    map sr_name first = flat_map postorder (mt_suites mt) /\
    map sr_name second = flat_map postorder (mt_suites mt).
Proof.
  intros H1 H2.
  destruct (run_grows _ _ _ _ _ H1) as (Htree & n & G1 & _ & E1).
  destruct (run_grows _ _ _ _ _ H2) as (_ & m & G2 & _ & E2).
  pose proof (run_pushes _ _ _ _ _ H1) as P1.
  pose proof (run_pushes _ _ _ _ _ H2) as P2.
  destruct (E1 _ eq_refl) as [Hr1 Hn]. destruct (E2 _ eq_refl) as [Hr2 Hm].
  subst n m. rewrite Htree in G2, P2.
  destruct G1 as (T1 & _). destruct G2 as (T2 & _).
  rewrite <- Hr1 in T1, T2, P2. rewrite <- Hr2 in T2.
  split; [ exact Htree | split; [ now symmetry | ] ].
  split; [ exact T1 | split; [ exact T2 | ] ].
  split; [ exact P1 | split; [ exact P2 | ] ].
  destruct P1 as (first & Hs1 & Hn1 & _). destruct P2 as (second & Hs2 & Hn2 & _).
  exists first, second. rewrite Hs2, Hs1, <- app_assoc. now repeat split.
Qed.

End Runner.

(* --------------------------------------------------------------------- *)
(** *** The claims on concrete runs *)
(* --------------------------------------------------------------------- *)

(** [describe] attaches a nested suite to its parent, in order. *)
Example describe_nests :
  map (fun s => (suite_name s, map test_name (suite_tests s),
                 map (@suite_name nat) (suite_nested s)))
      (mt_suites (fst (describe "outer"
                         [CallIt "a" (quick 0) noOptions;
                          CallDescribe "inner" [CallIt "b" (quick 0) noOptions];
                          CallIt "c" (quick 0) noOptions] constructor)))
  = [("outer", ["a"; "c"], ["inner"])].
Proof. reflexivity. Qed.

(** When the callback throws, the suite is not attached and the previous
    context is restored. *)
Example describe_restores_on_throw :
  describe "broken" [CallIt "a" (quick 0) noOptions; Raise (ThrownError "boom")]
           (@constructor nat)
  = (constructor, Throw (ThrownError "boom")).
Proof. reflexivity. Qed.

(** [options.timeout || 5000] *)
Example zero_timeout_is_default :
  map (@test_timeout nat)
      (suite_tests (hd (bare_nat "none") (mt_suites (fst (describe "s"
         [CallIt "t" (quick 0)
            {| opt_skip := None; opt_only := None; opt_timeout := Some 0%N |}]
         constructor)))))
  = [5000%N].
Proof. reflexivity. Qed.

(** The scenario of the specification: one passing test. *)
Example math_report :
  snd firstRun =
  Returns {| passed := 1; failed := 0; skipped := 0; total := 1; duration := 0;
             suites := [{| sr_name := "Math"; sr_passed := 1; sr_failed := 0;
                           sr_skipped := 0;
                           sr_tests := [{| tr_name := "adds"; tr_passed := true;
                                           tr_error := None; tr_duration := 0 |}] |}] |}.
Proof. reflexivity. Qed.

(** The focused suite: ["second"] is left out, the child runs its own
    tests and counts its skipped one. *)
Example focused_report :
  report (fst (runSuite focused fresh)) =
  {| passed := 2; failed := 0; skipped := 1; total := 3; duration := 0;
     suites := [{| sr_name := "child"; sr_passed := 1; sr_failed := 0;
                   sr_skipped := 1;
                   sr_tests := [{| tr_name := "third"; tr_passed := true;
                                   tr_error := None; tr_duration := 1 |}] |};
                {| sr_name := "focused"; sr_passed := 1; sr_failed := 0;
                   sr_skipped := 0;
                   sr_tests := [{| tr_name := "first"; tr_passed := true;
                                   tr_error := None; tr_duration := 1 |}] |}] |}.
Proof. reflexivity. Qed.

Example timeout_message : timeoutMessage 5000 = "Test timeout after 5000ms".
Proof. reflexivity. Qed.

(** The ["Math"] instance starts balanced and is balanced after [run()]. *)
Lemma run_total_is_sum_of_outcomes_witness :
  balanced (results mathInstance) /\
  balanced (results (fst (fst (run mathInstance start)))).
Proof.
  split; [ reflexivity | ].
  exact (proj1 (run_total_is_sum_of_outcomes unit mathInstance start eq_refl)).
Defined.

(** C2, counterexample: the ["Math"] tree has one counted test; the report
    of the second [run()] says two, and lists the suite twice. *)
Lemma second_run_reports_both_runs :
  countedInTree (mt_suites mathInstance) = 1 /\
  snd secondRun =
  Returns {| passed := 2; failed := 0; skipped := 0; total := 2; duration := 0;
             suites := [{| sr_name := "Math"; sr_passed := 1; sr_failed := 0;
                           sr_skipped := 0;
                           sr_tests := [{| tr_name := "adds"; tr_passed := true;
                                           tr_error := None; tr_duration := 0 |}] |};
                        {| sr_name := "Math"; sr_passed := 1; sr_failed := 0;
                           sr_skipped := 0;
                           sr_tests := [{| tr_name := "adds"; tr_passed := true;
                                           tr_error := None; tr_duration := 0 |}] |}] |}.
Proof. split; reflexivity. Qed.

(** On the ["Math"] instance the totals are 1 and then 2, and the second
    report lists the suite twice. *)
Lemma run_twice_accumulates_witness :
  total (results (fst (fst firstRun))) = 1 /\
  total (results (fst (fst secondRun))) = 1 + 1 /\
  map sr_name (suites (results (fst (fst secondRun)))) = ["Math"; "Math"].
Proof.
  destruct (run_twice_accumulates unit
              mathInstance start
              (fst (fst firstRun)) (snd (fst firstRun)) (results (fst (fst firstRun)))
              (snd (fst firstRun))
              (fst (fst secondRun)) (snd (fst secondRun)) (results (fst (fst secondRun)))
              eq_refl eq_refl)
    as (_ & _ & H1 & H2 & _ & _ & first & second & Hs & Hn1 & Hn2).
  split; [ exact H1 | split ].
  - rewrite H2, H1. reflexivity.
  - rewrite Hs, !map_app, Hn1, Hn2. reflexivity.
Defined.



(** A promise that would fulfil after 200 ms, with a timeout of 100 ms: the
    timer wins and the test fails with the timeout error.  When an
    [afterEach] hook never settles, [runTest] never returns and nothing is
    recorded. *)
Example late_promise_is_timed_out :
  runTest lateTest (mkSuite "s" [lateTest] [] [bump 7] [] [] []) zero =
    ({| world := 1; now := 107 |},
     Returns {| tr_name := "late"; tr_passed := false;
                tr_error := Some (ThrownError "Test timeout after 100ms");
                tr_duration := 100 |}) /\
  snd (runTest lateTest (mkSuite "s" [lateTest] [] [neverSettles] [] [] []) zero) = Hangs.
Proof. split; reflexivity. Qed.

(** The focused suite with counting bodies: ["first"] runs and ["second"]
    does not; the child, which has no marker, runs ["third"] and counts
    ["fourth"] as skipped.  Two bodies were called, the child's result is
    pushed before the parent's. *)
Lemma focus_mode_is_per_suite_witness :
  existsb test_only (suite_tests focusedTree) = true /\
  runSuite focusedTree fresh =
  ({| env := {| world := 2; now := 2 |};
      report :=
        {| passed := 2; failed := 0; skipped := 1; total := 3; duration := 0;
           suites := [{| sr_name := "child"; sr_passed := 1; sr_failed := 0;
                         sr_skipped := 1;
                         sr_tests := [{| tr_name := "third"; tr_passed := true;
                                         tr_error := None; tr_duration := 1 |}] |};
                      {| sr_name := "focused"; sr_passed := 1; sr_failed := 0;
                         sr_skipped := 0;
                         sr_tests := [{| tr_name := "first"; tr_passed := true;
                                         tr_error := None; tr_duration := 1 |}] |}] |} |},
   Returns tt).
Proof.
  split; [ reflexivity | ].
  rewrite (proj1 (focus_mode_is_per_suite nat focusedTree fresh) eq_refl).
  reflexivity.
Defined.

(** C5, counterexample: on a new instance, outside any [describe],
    [beforeEach(fn)] returns normally; only [it] throws. *)
Lemma hook_outside_a_suite_does_not_throw :
  currentSuite (@constructor nat) = None /\
  beforeEach (bump 0) constructor = (constructor, Normal tt) /\
  afterAll (bump 0) constructor = (constructor, Normal tt) /\
  it "t" (quick 0) noOptions constructor =
    (constructor, Throw (ThrownError "Tests must be defined inside a describe block")).
Proof. repeat split. Qed.

(** A new instance has no current suite, and [beforeAll] returns. *)
Lemma registration_outside_a_suite_witness :
  currentSuite (@constructor nat) = None /\
  beforeAll (bump 0) constructor = (constructor, Normal tt).
Proof.
  split; [ reflexivity | ].
  apply (proj2 (registration_outside_a_suite nat constructor eq_refl) (bump 0)).
Defined.

(** C6, at the failing input [afterEach(() => { throw null })] followed by
    a second [afterEach] hook: the test body passes, the handler of the
    first hook raises a TypeError on [error.message], the second hook never
    runs (the counter stays at 0) and [runTest] rejects instead of
    returning the result.  With [throw new Error(...)] in the same place the
    second hook runs (the counter reaches 1) and the test is recorded as
    passed. *)
Theorem afterEach_null_throw_stops_the_remaining_hooks :
  runTest (quickTest "t" 5 false false) (hooked [] [throwsNull; bump 7]) zero =
    ({| world := 0; now := 5 |}, Throws ThrownTypeError) /\
  runTest (quickTest "t" 5 false false) (hooked [] [throwsError; bump 7]) zero =
    ({| world := 1; now := 12 |},
     Returns {| tr_name := "t"; tr_passed := true; tr_error := None;
                tr_duration := 5 |}).
Proof. split; reflexivity. Qed.

(** The scenario of the specification: a [beforeEach] hook that throws an
    Error fails the test, and the [afterEach] hook still runs. *)
Example beforeEach_failure_still_runs_afterEach :
  runTest (quickTest "t" 5 false false) (hooked [throwsError] [bump 7]) zero =
    ({| world := 1; now := 7 |},
     Returns {| tr_name := "t"; tr_passed := false;
                tr_error := Some (ThrownError "setup failed"); tr_duration := 0 |}).
Proof. reflexivity. Qed.

(** C9, counterexample: a [beforeEach] hook of 10 ms, a body of 5 ms and an
    [afterEach] hook of 7 ms give a recorded duration of 15 ms, not 5. *)
Lemma duration_includes_beforeEach :
  sync_ms (quick 5 1) = 5%N /\
  runTest (quickTest "t" 5 false false) (hooked [bump 10] [bump 7]) zero =
    ({| world := 2; now := 22 |},
     Returns {| tr_name := "t"; tr_passed := true; tr_error := None;
                tr_duration := 15 |}).
Proof. split; reflexivity. Qed.

(** 10 ms of [beforeEach] and 5 ms of body are recorded as 15 ms. *)
Lemma duration_spans_beforeEach_and_body_witness :
  tr_duration {| tr_name := "t"; tr_passed := true; tr_error := None;
                 tr_duration := 15 |} = (10 + 5)%N.
Proof.
  destruct (duration_spans_beforeEach_and_body nat
              (quickTest "t" 5 false false) (hooked [bump 10] [bump 7]) zero
              {| world := 2; now := 22 |}
              {| tr_name := "t"; tr_passed := true; tr_error := None;
                 tr_duration := 15 |} eq_refl) as (H & _).
  exact H.
Defined.

End RunnerFacts.

(* ===================================================================== *)
(** ** Further properties of the runner *)
(* ===================================================================== *)

Module RunnerExtras.
Import MicroTest Notions Fixtures RunnerFacts.

Section Runner.
Variable W : Type.
Implicit Types (suite : Suite W) (t : Test W) (st : RunState W) (e : Env W)
               (mt : Instance W) (d : Decl W).

(* --------------------------------------------------------------------- *)
(** *** Registration builds the declared tree *)
(* --------------------------------------------------------------------- *)

Lemma withCurrent_current mt s : currentSuite mt = Some s -> withCurrent mt (Some s) = mt.
Proof. destruct mt; cbn. now intros ->. Qed.

Lemma sequence_inside (body : list (Decl W)) :
  Forall (fun d => forall mt s, currentSuite mt = Some s -> raises d = false ->
            call d mt = (withCurrent mt (Some (register d s)), Normal tt)) body ->
  forall mt s, currentSuite mt = Some s -> existsb raises body = false ->
    inSequence call body mt =
    (withCurrent mt (Some (fold_left (fun acc d => register d acc) body s)), Normal tt).
Proof.
  induction 1 as [ | d body Hd _ IH ]; intros mt s Hcur Hquiet; cbn in *.
  - now rewrite withCurrent_current.
  - apply orb_false_iff in Hquiet as [Hd' Hbody].
    rewrite (Hd mt s Hcur Hd').
    rewrite (IH (withCurrent mt (Some (register d s))) (register d s) eq_refl Hbody).
    reflexivity.
Qed.

(** Inside a suite, a registration call that does not throw leaves exactly
    the suite [register] describes. *)
Lemma call_inside d :
  forall mt s, currentSuite mt = Some s -> raises d = false ->
    call d mt = (withCurrent mt (Some (register d s)), Normal tt).
Proof.
  induction d as [ name fn options | fn | fn | fn | fn | name body IH | error ]
    using Decl_nested_ind; intros mt s Hcur Hquiet.
  1-5: cbn; unfold it, beforeEach, afterEach, beforeAll, afterAll;
       rewrite Hcur; reflexivity.
  - cbn [call raises register] in *.
    pose proof (sequence_inside body IH (withCurrent mt (Some (newSuite name)))
                  (newSuite name) eq_refl Hquiet) as Hseq.
    unfold newSuite in Hseq at 1. rewrite Hseq.
    cbn. rewrite Hcur. reflexivity.
  - discriminate.
Qed.

(** X2. Outside any suite, [describe(name, fn)] with a callback in which
    nothing throws appends exactly one suite to the instance: the declared
    tree, with tests, hooks and nested suites in declaration order.  The
    context is back to none and the report is untouched. *)
Theorem describe_registers_declared_tree (name : string) (body : list (Decl W)) mt :
  currentSuite mt = None ->
  existsb raises body = false ->
  describe name body mt =
  ({| mt_suites := mt_suites mt ++ [declared name body];
      currentSuite := None;
      results := results mt |}, Normal tt).
Proof.
  intros Hnone Hquiet. unfold describe. cbn [call].
  pose proof (sequence_inside body
                ltac:(apply Forall_forall; intros d _; apply call_inside)
                (withCurrent mt (Some (newSuite name))) (newSuite name)
                eq_refl Hquiet) as Hseq.
  unfold newSuite in Hseq at 1. rewrite Hseq.
  cbn. rewrite Hnone. reflexivity.
Qed.

(* --------------------------------------------------------------------- *)
(** *** A callback that throws *)
(* --------------------------------------------------------------------- *)

Lemma sequence_keeps_tree (body : list (Decl W)) :
  Forall (fun d => forall mt, currentSuite mt <> None ->
            mt_suites (fst (call d mt)) = mt_suites mt) body ->
  forall mt, currentSuite mt <> None ->
    mt_suites (fst (inSequence call body mt)) = mt_suites mt.
Proof.
  induction 1 as [ | d body Hd _ IH ]; intros mt Hcur; cbn; [ reflexivity | ].
  specialize (Hd mt Hcur). pose proof (call_keeps W d mt) as [_ Hnone].
  destruct (call d mt) as [mt1 [ u | err ]]; cbn [fst] in *.
  - rewrite IH; [ exact Hd | tauto ].
  - exact Hd.
Qed.

(** Inside a suite no registration call touches the list of top-level
    suites. *)
Lemma call_keeps_tree d :
  forall mt, currentSuite mt <> None ->
    mt_suites (fst (call d mt)) = mt_suites mt.
Proof.
  induction d as [ name fn options | fn | fn | fn | fn | name body IH | error ]
    using Decl_nested_ind; intros mt Hcur.
  1-5: cbn; unfold it, beforeEach, afterEach, beforeAll, afterAll;
       destruct (currentSuite mt); cbn; reflexivity.
  - cbn [call].
    pose proof (sequence_keeps_tree body IH (withCurrent mt (Some (newSuite name)))
                  ltac:(discriminate)) as Htree.
    unfold newSuite in Htree.
    destruct (inSequence call body _) as [mt1 [ u | err ]]; cbn [fst] in *.
    + destruct (currentSuite mt) as [parent | ]; [ exact Htree | contradiction ].
    + exact Htree.
  - reflexivity.
Qed.

(** If [describe] throws, the instance is exactly as before the call: no
    suite is attached, the previous context is restored, the report is
    untouched. *)
Lemma thrown_describe_restores (name : string) (body : list (Decl W)) mt mt' error :
  describe name body mt = (mt', Throw error) -> mt' = mt.
Proof.
  unfold describe. cbn [call].
  pose proof (sequence_keeps_tree body
                ltac:(apply Forall_forall; intros d _; apply call_keeps_tree)
                (withCurrent mt (Some (newSuite name))) ltac:(discriminate)) as Htree.
  pose proof (inSequence_keeps W call body
                ltac:(apply Forall_forall; intros d _; apply call_keeps)
                (withCurrent mt (Some (newSuite name)))) as [Hres _].
  unfold newSuite in Htree, Hres.
  destruct (inSequence call body _) as [mt1 [ u | err ]]; cbn [fst] in *.
  - destruct (currentSuite mt); discriminate.
  - intros [= <- _]. destruct mt as [ss cur res], mt1 as [ss1 cur1 res1].
    cbn in *. now subst.
Qed.

(** A call that throws nothing is one in which nothing raises. *)
Lemma thrownBy_quiet d : thrownBy d = None -> raises d = false.
Proof.
  induction d as [ name fn options | fn | fn | fn | fn | name body IH | error ]
    using Decl_nested_ind; cbn [thrownBy raises]; try reflexivity; try discriminate.
  induction IH as [ | d body Hd _ IHbody ]; cbn [firstThrown existsb];
    [ reflexivity | ].
  destruct (thrownBy d) as [ error | ]; [ discriminate | ].
  intros Hrest. now rewrite (Hd eq_refl), (IHbody Hrest).
Qed.

(** A callback runs up to its first statement that throws. *)
Lemma sequence_thrown (body : list (Decl W)) :
  Forall (fun d => forall mt error, thrownBy d = Some error ->
            exists mt', call d mt = (mt', Throw error)) body ->
  forall mt s error, currentSuite mt = Some s ->
    firstThrown thrownBy body = Some error ->
    exists mt', inSequence call body mt = (mt', Throw error).
Proof.
  induction 1 as [ | d body Hd _ IH ]; intros mt s error Hcur Hthrown;
    cbn [firstThrown inSequence] in *; [ discriminate | ].
  destruct (thrownBy d) as [ first | ] eqn:Hfirst.
  - injection Hthrown as ->. destruct (Hd mt error eq_refl) as [mt' ->].
    now exists mt'.
  - rewrite (call_inside d mt s Hcur (thrownBy_quiet d Hfirst)).
    exact (IH (withCurrent mt (Some (register d s))) (register d s) error
             eq_refl Hthrown).
Qed.

Lemma call_thrown d :
  forall mt error, thrownBy d = Some error ->
    exists mt', call d mt = (mt', Throw error).
Proof.
  induction d as [ name fn options | fn | fn | fn | fn | name body IH | thrown ]
    using Decl_nested_ind; intros mt error Hthrown; cbn [thrownBy] in Hthrown;
    try discriminate.
  - cbn [call].
    destruct (sequence_thrown body IH (withCurrent mt (Some (newSuite name)))
                (newSuite name) error eq_refl Hthrown) as [mt' Hseq].
    unfold newSuite in Hseq at 1. rewrite Hseq. eexists; reflexivity.
  - injection Hthrown as ->. eexists; reflexivity.
Qed.

(** X1. When the callback of [describe] throws, at top level or in the
    callback of a nested [describe], [describe] throws the same value and
    the instance is exactly as before the call: no suite (and none of the
    tests the callback had registered before it threw) is attached, the
    previous context is restored, the report is untouched. *)
Theorem describe_that_throws_changes_nothing (name : string) (body : list (Decl W))
        mt error :
  firstThrown thrownBy body = Some error ->
  describe name body mt = (mt, Throw error).
Proof.
  intros Hthrown.
  destruct (call_thrown (CallDescribe name body) mt error Hthrown) as [mt' Hcall].
  fold (describe name body mt) in Hcall. rewrite Hcall.
  now rewrite (thrown_describe_restores name body mt mt' error Hcall).
Qed.

(* --------------------------------------------------------------------- *)
(** *** Best-effort isolation *)
(* --------------------------------------------------------------------- *)

Section LoopOutcomes.
Variables A S : Type.
Variable body : A -> S -> S * Completion unit.

Lemma forAwait_returns (l : list A) :
  Forall (fun x => forall s, exists s', body x s = (s', Returns tt)) l ->
  forall s, exists s', forAwait body l s = (s', Returns tt).
Proof.
  induction 1 as [ | x l Hx _ IH ]; intros s; cbn.
  - now exists s.
  - destruct (Hx s) as [s1 ->]. apply IH.
Qed.

End LoopOutcomes.

Lemma beforeEach_loop_contained (hooks : list (Hook W)) :
  Forall tameHook hooks -> forall e, contained (snd (forAwait awaitHook hooks e)).
Proof.
  induction 1 as [ | hook hooks Hh _ IH ]; intros e; cbn; [ exact I | ].
  specialize (Hh (world e)). unfold MicroTest.awaitHook.
  destruct (hook (world e)) as [ms w [ err | ] | w ]; cbn.
  - exact Hh.
  - apply IH.
  - contradiction.
Qed.

Lemma awaitBody_contained t e :
  tameBody (test_fn t) -> contained (snd (awaitBody t e)).
Proof.
  intros Htame. specialize (Htame (world e)). unfold MicroTest.awaitBody.
  destruct (returned (test_fn t (world e))) as [ err | | [[[delay w] s] | ]]; cbn.
  - exact Htame.
  - exact I.
  - destruct (test_timeout t <? delay)%N; cbn; [ exact I | ].
    destruct s as [ | err ]; cbn; [ exact I | exact Htame ].
  - exact I.
Qed.

Lemma tryBlock_contained t suite e :
  Forall tameHook (suite_beforeEach suite) -> tameBody (test_fn t) ->
  contained (snd (tryBlock t suite e)).
Proof.
  intros Hhooks Hbody. unfold MicroTest.tryBlock.
  pose proof (beforeEach_loop_contained _ Hhooks e) as Hloop.
  destruct (forAwait awaitHook (suite_beforeEach suite) e) as [e1 [ u | err | ]];
    cbn [snd] in *; [ now apply awaitBody_contained | exact Hloop | exact Hloop ].
Qed.

(** [runTest] returns a result when its [try] block ends with something the
    [catch] clause can log and the [afterEach] hooks settle and are
    loggable. *)
Lemma contained_runTest_returns t suite e :
  Forall loggable (suite_afterEach suite) ->
  contained (snd (tryBlock t suite e)) ->
  exists e' r, runTest t suite e = (e', Returns r).
Proof.
  intros Hafter Hc.
  destruct (afterEach_hooks_all_run W t suite e Hafter) as (r & Hrun & _).
  - intros Heq. rewrite Heq in Hc. exact Hc.
  - intros Heq. rewrite Heq in Hc. exact Hc.
  - intros m Heq. rewrite Heq in Hc. exact Hc.
  - eexists; eexists; exact Hrun.
Qed.

Lemma runTest_returns t suite e :
  Forall tameHook (suite_beforeEach suite) ->
  Forall loggable (suite_afterEach suite) ->
  tameBody (test_fn t) ->
  exists e' r, runTest t suite e = (e', Returns r).
Proof.
  intros Hbefore Hafter Hbody.
  exact (contained_runTest_returns t suite e Hafter
           (tryBlock_contained t suite e Hbefore Hbody)).
Qed.

Lemma hooksStep_returns (hooks : list (Hook W)) st :
  Forall loggable hooks -> exists st', hooksStep hooks st = (st', Returns tt).
Proof.
  intros Hlog. unfold MicroTest.hooksStep.
  rewrite (guarded_loop_loggable W hooks Hlog). eexists; reflexivity.
Qed.

Lemma runSuite_returns suite :
  Tame suite -> forall st, exists st', runSuite suite st = (st', Returns tt).
Proof.
  induction suite as [name tests bE aE bA aA nested IH] using Suite_nested_ind.
  intros Htame st.
  inversion Htame as [? ? ? ? ? ? ? Htests HbE HaE HbA HaA Hnested]; subst.
  rewrite runSuite_eq.
  cbn [suite_beforeAll suite_tests suite_nested suite_afterAll suite_name].
  destruct (hooksStep_returns bA st HbA) as [st1 ->].
  destruct (forAwait_returns _ _
              (testStep (mkSuite name tests bE aE bA aA nested)
                        (existsb test_only tests)) tests
              ltac:(apply Forall_forall; intros t Ht [sr0 st0];
                    rewrite testStep_eq;
                    destruct (_ && _); [ eexists; reflexivity | ];
                    destruct (test_skip t); [ eexists; reflexivity | ];
                    destruct (runTest_returns t (mkSuite name tests bE aE bA aA nested)
                                (env st0) HbE HaE
                                (proj1 (Forall_forall _ _) Htests t Ht))
                      as (e1 & r & ->);
                    eexists; reflexivity)
              ({| sr_name := name; sr_passed := 0; sr_failed := 0; sr_skipped := 0;
                  sr_tests := [] |}, st1)) as [[sr st2] ->].
  destruct (forAwait_returns _ _ runSuite nested
              ltac:(apply Forall_forall; intros child Hchild;
                    apply (proj1 (Forall_forall _ _) IH child Hchild);
                    apply (proj1 (Forall_forall _ _) Hnested child Hchild))
              st2) as [st3 ->].
  destruct (hooksStep_returns aA st3 HaA) as [st4 ->].
  eexists; reflexivity.
Qed.

(** X4. Best-effort isolation, where it holds.  Let every call of a test
    body come back and every hook of the tree settle; let no hook throw
    [null] or [undefined]; and let every value a [beforeEach] hook or a test
    body throws, or rejects with, be one the [catch] clause of [runTest] can
    log: not [null] or [undefined], with a message that can be read and
    printed and a stack that is falsy or a string, as every Error object
    is.  Then [run()] resolves with the report, whatever else the callbacks
    throw and whichever tests fail or time out. *)
Theorem run_resolves_on_tame_tree mt e :
  Forall Tame (mt_suites mt) ->
  exists mt' e' r, run mt e = ((mt', e'), Returns r) /\ r = results mt'.
Proof.
  intros Htame. unfold MicroTest.run.
  destruct (forAwait_returns _ _ runSuite (mt_suites mt)
              ltac:(apply Forall_forall; intros suite Hs;
                    apply runSuite_returns;
                    apply (proj1 (Forall_forall _ _) Htame suite Hs))
              {| env := e; report := results mt |}) as [st ->].
  eexists; eexists; eexists; split; reflexivity.
Qed.

(** X5. What a recorded test result looks like.  Every result [runTest]
    returns has the name of its test; it is marked passed exactly when the
    [try] block ([beforeEach] hooks, then the body under the timeout)
    returned, and exactly when it carries no error; a failed result carries
    the very value the [try] block threw, which is never [null],
    [undefined] or a value with a truthy stack that has no [split] method.
    [runTest] returns a result whenever the [try] block ends with a return
    or such a throw and every [afterEach] hook settles and throws neither
    [null] nor [undefined]. *)
Theorem result_is_passed_iff_no_error t suite e :
  (forall e' r, runTest t suite e = (e', Returns r) ->
     (tr_passed r = true <-> tr_error r = None) /\
     tr_error r <> Some ThrownNullish /\
     tr_name r = test_name t /\
     tr_error r = match snd (tryBlock t suite e) with
                  | Throws error => Some error
                  | _ => None
                  end /\
     (tr_passed r = true <-> snd (tryBlock t suite e) = Returns tt) /\
     (forall m, tr_error r <> Some (ThrownOddStack m))) /\
  (Forall loggable (suite_afterEach suite) ->
   contained (snd (tryBlock t suite e)) ->
   exists e' r, runTest t suite e = (e', Returns r)).
Proof.
  split; [ | apply contained_runTest_returns ].
  intros e' r Hrun. pose proof (runTest_name W _ _ _ _ _ Hrun) as Hname.
  rewrite runTest_eq in Hrun. cbv zeta in Hrun.
  destruct (forAwait guarded (suite_afterEach suite) _) as [e2 [ u2 | err2 | ]];
    destruct (snd (tryBlock t suite e)) as [ [] | err | ]; try discriminate.
  - injection Hrun as _ <-. cbn.
    repeat split; try discriminate; auto.
  - destruct err; cbn in Hrun; try discriminate; injection Hrun as _ <-; cbn;
      (repeat split; try discriminate; try exact Hname).
Qed.

(* --------------------------------------------------------------------- *)
(** *** The shape of the report *)
(* --------------------------------------------------------------------- *)




(** X7. The report is itemised: if each of [passed], [failed] and [skipped]
    is the sum of that counter over the listed suite results (as in a new
    instance), the same holds of the report [run()] resolves with. *)
Theorem report_counters_are_sums_over_suites mt e mt' e' r :
  itemised (results mt) ->
  run mt e = ((mt', e'), Returns r) ->
  itemised r.
Proof.
  intros (Hp0 & Hf0 & Hk0) Hrun.
  destruct (run_pushes W _ _ _ _ _ Hrun) as (more & Hs & _ & Hp & Hf & Hk).
  unfold itemised. rewrite Hs, !map_app, !list_sum_app. lia.
Qed.

(** X8. [run()] appends one suite result per suite of the tree, and lists
    every suite after all its nested suites: the order is post-order, not
    declaration order. *)
Theorem suite_results_are_listed_children_first mt e mt' e' r :
  run mt e = ((mt', e'), Returns r) ->
  exists more,
    suites r = (suites (results mt) ++ more)%list /\
    map sr_name more = flat_map postorder (mt_suites mt).
Proof.
  intros Hrun.
  destruct (run_pushes W _ _ _ _ _ Hrun) as (more & Hs & Hn & _).
  now exists more.
Qed.

(* --------------------------------------------------------------------- *)
(** *** Hooks, timers and markers *)
(* --------------------------------------------------------------------- *)

(** X9. [beforeEach] and [afterEach] hooks are not inherited: for a suite
    without direct tests they never run, whatever its nested suites
    contain.  Running the suite with any other such hooks is the same. *)
Theorem each_hooks_are_not_inherited suite (bE aE : list (Hook W)) st :
  suite_tests suite = [] ->
  runSuite (withEachHooks suite bE aE) st = runSuite suite st.
Proof.
  intros Hempty. rewrite !runSuite_eq.
  destruct suite as [name tests bE0 aE0 bA aA nested]. cbn in *. subst tests.
  reflexivity.
Qed.



(* --------------------------------------------------------------------- *)
(** *** Timeouts of registered tests *)
(* --------------------------------------------------------------------- *)

Lemma orDefaultTimeout_not_zero (t : option N) : orDefaultTimeout t <> 0%N.
Proof. destruct t as [ [ | p ] | ]; cbn; discriminate. Qed.

Lemma register_keeps_timeouts d :
  forall s : Suite W,
    (forall t, In t (allTests s) -> test_timeout t <> 0%N) ->
    forall t, In t (allTests (register d s)) -> test_timeout t <> 0%N.
Proof.
  induction d as [ name fn options | fn | fn | fn | fn | name body IH | error ]
    using Decl_nested_ind; intros [sn tests bE aE bA aA nested] Hs t;
    cbn [register pushTest pushNested allTests suite_tests suite_nested
         suite_name suite_beforeEach suite_afterEach suite_beforeAll suite_afterAll];
    try exact (Hs t).
  - rewrite <- app_assoc, in_app_iff. cbn [app In].
    intros [Hin | [<- | Hin]].
    + apply Hs. cbn [allTests suite_tests suite_nested]. apply in_app_iff. now left.
    + cbn. apply orDefaultTimeout_not_zero.
    + apply Hs. cbn [allTests suite_tests suite_nested]. apply in_app_iff. now right.
  - rewrite flat_map_app, !in_app_iff. cbn [flat_map]. rewrite app_nil_r.
    intros [Hin | [Hin | Hin]].
    + apply Hs. cbn [allTests suite_tests suite_nested]. apply in_app_iff. now left.
    + apply Hs. cbn [allTests suite_tests suite_nested]. apply in_app_iff. now right.
    + revert t Hin.
      assert (forall acc : Suite W,
                (forall t, In t (allTests acc) -> test_timeout t <> 0%N) ->
                forall t, In t (allTests (fold_left (fun a d' => register d' a) body acc)) ->
                          test_timeout t <> 0%N) as Hfold.
      { clear - IH. induction IH as [ | d body Hd _ IHbody ]; intros acc Hacc; cbn.
        - exact Hacc.
        - apply IHbody. now apply Hd. }
      apply Hfold. intros t []. 
Qed.

(** The tree [describe] registers, as an equation. *)
Lemma describe_declared (name : string) (body : list (Decl W)) mt :
  currentSuite mt = None ->
  existsb raises body = false ->
  mt_suites (fst (describe name body mt)) = (mt_suites mt ++ [declared name body])%list.
Proof.
  intros Hnone Hquiet. unfold describe. cbn [call].
  pose proof (sequence_inside body
                ltac:(apply Forall_forall; intros d _; apply call_inside)
                (withCurrent mt (Some (newSuite name))) (newSuite name)
                eq_refl Hquiet) as Hseq.
  unfold newSuite in Hseq at 1. rewrite Hseq.
  cbn. rewrite Hnone. reflexivity.
Qed.

(** X25. No test registered through [describe], at any depth, has a
    timeout of 0: a timeout of 0 (or none) given to [it] is replaced by
    5000 ms, so no test can be declared to time out immediately. *)
Theorem registered_timeouts_are_never_zero (name : string) (body : list (Decl W)) mt :
  currentSuite mt = None ->
  existsb raises body = false ->
  exists s,
    mt_suites (fst (describe name body mt)) = (mt_suites mt ++ [s])%list /\
    forall t, In t (allTests s) -> test_timeout t <> 0%N.
Proof.
  intros Hnone Hquiet. exists (declared name body).
  split; [ now apply describe_declared | ].
  unfold declared.
  assert (forall (l : list (Decl W)) (acc : Suite W),
            (forall t, In t (allTests acc) -> test_timeout t <> 0%N) ->
            forall t, In t (allTests (fold_left (fun a d => register d a) l acc)) ->
                      test_timeout t <> 0%N) as Hfold.
  { induction l as [ | d l IHl ]; intros acc Hacc; cbn; [ exact Hacc | ].
    apply IHl. now apply register_keeps_timeouts. }
  apply Hfold. intros t [].
Qed.

End Runner.

(* --------------------------------------------------------------------- *)
(** *** The further properties on concrete runs *)
(* --------------------------------------------------------------------- *)

Import MoreFixtures.

(** The tree of the example, as registered. *)
Example treeInstance_suites :
  map (fun s => (suite_name s, map test_name (suite_tests s),
                 map (@suite_name nat) (suite_nested s),
                 map test_timeout (allTests s)))
      (mt_suites treeInstance)
  = [("outer", ["a"; "c"], ["inner"], [5000; 5000; 5000]%N)].
Proof. reflexivity. Qed.

(** A throwing callback on an instance that already has a suite. *)
Lemma describe_that_throws_changes_nothing_witness :
  firstThrown thrownBy brokenDecl = Some (ThrownError "boom") /\
  describe "broken" brokenDecl treeInstance =
    (treeInstance, Throw (ThrownError "boom")).
Proof.
  split; [ reflexivity | ].
  exact (describe_that_throws_changes_nothing nat "broken" brokenDecl treeInstance
           (ThrownError "boom") eq_refl).
Defined.

(** A [throw] in the callback of a nested [describe] leaves through both:
    neither the nested nor the outer suite is attached. *)
Example nested_throw_leaves_both_describes :
  describe "outer"
    [CallIt "a" (quick 0) noOptions;
     CallDescribe "inner" [CallIt "b" (quick 0) noOptions; Raise (ThrownError "boom")];
     CallIt "c" (quick 0) noOptions]
    treeInstance
  = (treeInstance, Throw (ThrownError "boom")).
Proof. reflexivity. Qed.

(** A second [describe] on the same instance appends the declared tree. *)
Lemma describe_registers_declared_tree_witness :
  currentSuite treeInstance = None /\
  existsb raises nestedDecl = false /\
  describe "again" nestedDecl treeInstance =
    ({| mt_suites := mt_suites treeInstance ++ [declared "again" nestedDecl];
        currentSuite := None;
        results := results treeInstance |}, Normal tt).
Proof.
  split; [ reflexivity | split; [ reflexivity | ] ].
  exact (describe_registers_declared_tree nat "again" nestedDecl treeInstance
           eq_refl eq_refl).
Defined.

(** The run of the instance whose [afterEach] hook throws [null] rejects;
    so does the run of a tree with a body that throws
    [{ message: "odd", stack: 42 }], although its [afterEach] hook runs. *)
Example runs_that_reject :
  snd (run nullInstance zero) = Throws ThrownTypeError /\
  runTest oddStackTest (mkSuite "s" [oddStackTest] [] [bump 7] [] [] []) zero =
    ({| world := 1; now := 7 |}, Throws ThrownTypeError) /\
  snd (run {| mt_suites := [mkSuite "s" [oddStackTest] [] [bump 7] [] [] []];
              currentSuite := None;
              results := results (@constructor nat) |} zero) = Throws ThrownTypeError.
Proof. repeat split. Qed.

Lemma treeInstance_is_tame : Forall Tame (mt_suites treeInstance).
Proof.
  repeat constructor; intros w; exact I.
Qed.

(** The example tree has an [afterAll] hook that throws an Error and a test
    that is skipped; its run resolves. *)
Lemma run_resolves_on_tame_tree_witness :
  Forall Tame (mt_suites treeInstance) /\
  exists mt' e' r, run treeInstance zero = ((mt', e'), Returns r) /\ r = results mt'.
Proof.
  split; [ exact treeInstance_is_tame | ].
  exact (run_resolves_on_tame_tree nat treeInstance zero treeInstance_is_tame).
Defined.

(** A test whose [beforeEach] hook throws an Error: the result carries
    that Error. *)
Lemma result_is_passed_iff_no_error_witness :
  runTest (quickTest "t" 5 false false) (hooked [throwsError] [bump 7]) zero =
    ({| world := 1; now := 7 |},
     Returns {| tr_name := "t"; tr_passed := false;
                tr_error := Some (ThrownError "setup failed"); tr_duration := 0 |}) /\
  Some (ThrownError "setup failed") =
    match snd (tryBlock (quickTest "t" 5 false false)
                        (hooked [throwsError] [bump 7]) zero) with
    | Throws error => Some error
    | _ => None
    end.
Proof.
  split; [ reflexivity | ].
  destruct (proj1 (result_is_passed_iff_no_error nat
                     (quickTest "t" 5 false false)
                     (hooked [throwsError] [bump 7]) zero)
                  {| world := 1; now := 7 |}
                  {| tr_name := "t"; tr_passed := false;
                     tr_error := Some (ThrownError "setup failed");
                     tr_duration := 0 |} eq_refl) as (_ & _ & _ & H & _).
  exact H.
Defined.


(** A new instance is itemised, and so is its report after a run. *)
Lemma report_counters_are_sums_over_suites_witness :
  itemised (results treeInstance) /\
  itemised (results (fst (fst (run treeInstance zero)))).
Proof.
  assert (itemised (results treeInstance)) as H0 by (repeat split).
  split; [ exact H0 | ].
  exact (report_counters_are_sums_over_suites nat treeInstance zero
           (fst (fst (run treeInstance zero))) (snd (fst (run treeInstance zero)))
           (results (fst (fst (run treeInstance zero)))) H0 eq_refl).
Defined.

(** In the example, ["inner"] is listed before ["outer"]. *)
Lemma suite_results_are_listed_children_first_witness :
  flat_map postorder (mt_suites treeInstance) = ["inner"; "outer"] /\
  exists more,
    suites (results (fst (fst (run treeInstance zero)))) =
      (suites (results treeInstance) ++ more)%list /\
    map sr_name more = flat_map postorder (mt_suites treeInstance).
Proof.
  split; [ reflexivity | ].
  exact (suite_results_are_listed_children_first nat treeInstance zero
           (fst (fst (run treeInstance zero))) (snd (fst (run treeInstance zero)))
           (results (fst (fst (run treeInstance zero)))) eq_refl).
Defined.

(** The parent's [beforeEach] hook throws [null]; the child's test never
    meets it. *)
Lemma each_hooks_are_not_inherited_witness :
  suite_tests parentOnly = [] /\
  runSuite (withEachHooks parentOnly [] []) fresh = runSuite parentOnly fresh.
Proof.
  split; [ reflexivity | ].
  exact (each_hooks_are_not_inherited nat parentOnly [] [] fresh eq_refl).
Defined.



(** In the example the timeout 0 given to ["b"] became 5000. *)
Lemma registered_timeouts_are_never_zero_witness :
  currentSuite (@constructor nat) = None /\
  existsb raises nestedDecl = false /\
  exists s,
    mt_suites (fst (describe "outer" nestedDecl constructor)) =
      (mt_suites (@constructor nat) ++ [s])%list /\
    forall t, In t (allTests s) -> test_timeout t <> 0%N.
Proof.
  split; [ reflexivity | split; [ reflexivity | ] ].
  exact (registered_timeouts_are_never_zero nat "outer" nestedDecl constructor
           eq_refl eq_refl).
Defined.

End RunnerExtras.

(* ===================================================================== *)
(** ** Further properties of the equality matchers *)
(* ===================================================================== *)

Module ExpectExtras.
Import Js Expect Fixtures ExpectFacts.

Lemma every_ext {A} (f g : A -> nat -> bool) (l : list A) :
  (forall x i, In x l -> f x i = g x i) -> every f l = every g l.
Proof.
  unfold every. generalize 0.
  induction l as [ | x l IH ]; intros n H; cbn; [ reflexivity | ].
  rewrite (H x n (or_introl eq_refl)).
  destruct (g x n); [ | reflexivity ].
  apply IH. intros y i Hy. apply H. now right.
Qed.

Lemma every_perm {A} (f : A -> bool) (l l' : list A) :
  Permutation l l' -> every (fun x _ => f x) l = every (fun x _ => f x) l'.
Proof.
  intros Hperm. apply eq_iff_eq_true. rewrite !every_true_In. split.
  - intros H x Hx. apply H. exact (Permutation_in _ (Permutation_sym Hperm) Hx).
  - intros H x Hx. apply H. exact (Permutation_in _ Hperm Hx).
Qed.

Lemma assoc_In k v props : assoc k props = Some v -> In (k, v) props.
Proof.
  induction props as [ | [k' v'] props IH ]; cbn; [ discriminate | ].
  destruct (String.eqb_spec k k') as [-> | _].
  - intros [= ->]. now left.
  - intros H. right. now apply IH.
Qed.

Lemma In_assoc k v props :
  NoDup (map fst props) -> In (k, v) props -> assoc k props = Some v.
Proof.
  induction props as [ | [k' v'] props IH ]; cbn; [ contradiction | ].
  intros Hnd Hin. inversion Hnd as [ | ? ? Hnotin Hnd' ]; subst.
  destruct Hin as [[= -> ->] | Hin].
  - now rewrite String.eqb_refl.
  - destruct (String.eqb_spec k k') as [-> | _]; [ | now apply IH ].
    exfalso. apply Hnotin. apply (in_map fst) in Hin. exact Hin.
Qed.

(** Reading a property does not depend on the order in which the keys of a
    well-formed object were inserted. *)
Lemma get_perm r c props props' k :
  NoDup (map fst props) -> Permutation props props' ->
  get (VObject r c props) k = get (VObject r c props') k.
Proof.
  intros Hnd Hperm. cbn.
  assert (NoDup (map fst props')) as Hnd'
    by exact (Permutation_NoDup (Permutation_map fst Hperm) Hnd).
  destruct (assoc k props) as [v | ] eqn:Ha.
  - apply assoc_In in Ha. apply (Permutation_in _ Hperm) in Ha.
    now rewrite (In_assoc _ _ _ Hnd' Ha).
  - destruct (assoc k props') as [v' | ] eqn:Ha'; [ | reflexivity ].
    apply assoc_In in Ha'. apply (Permutation_in _ (Permutation_sym Hperm)) in Ha'.
    rewrite (In_assoc _ _ _ Hnd Ha') in Ha. discriminate.
Qed.

(** X12. Key order is irrelevant to deep equality: reordering the keys of a
    well-formed object, on either side of the comparison, never changes the
    answer of [deepEqual]. *)
Theorem deepEqual_ignores_key_order r c props props' :
  NoDup (map fst props) ->
  Permutation props props' ->
  forall other,
    deepEqual (VObject r c props) other = deepEqual (VObject r c props') other /\
    deepEqual other (VObject r c props) = deepEqual other (VObject r c props').
Proof.
  intros Hnd Hperm other.
  pose proof (Permutation_length Hperm) as Hlen.
  split.
  - destruct other as [ | | ? | ? | ? | ? | r' c' items' | r' c' props'' ];
      cbn; try reflexivity.
    destruct (Nat.eqb r r'); [ reflexivity | ].
    rewrite !length_map, Hlen.
    destruct (negb (Nat.eqb (List.length props') (List.length props'')));
      [ reflexivity | ].
    apply (every_perm
             (fun entry : string * Value =>
                let '(key, value) := entry in
                deepEqual value (get (VObject r' c' props'') key)) _ _ Hperm).
  - destruct other as [ | | ? | ? | ? | ? | r' c' items' | r' c' props'' ];
      cbn; try reflexivity.
    destruct (Nat.eqb r' r); [ reflexivity | ].
    rewrite !length_map, Hlen.
    destruct (negb (Nat.eqb (List.length props'') (List.length props')));
      [ reflexivity | ].
    apply every_ext. intros [k v] i _.
    pose proof (get_perm r c props props' k Hnd Hperm) as Hget.
    cbn in Hget. now rewrite Hget.
Qed.

(** X13. [toBe] is stricter than [toEqual] except on NaN: whenever
    [Object.is(a, b)] holds, [deepEqual(a, b)] holds too, unless both are
    NaN. *)
Theorem objectIs_implies_deepEqual_except_NaN a b :
  objectIs a b = true ->
  deepEqual a b = true \/
  exists x y, a = VNumber x /\ b = VNumber y /\ is_nan x = true /\ is_nan y = true.
Proof.
  intros H.
  destruct (strictEquals a b) eqn:Hs; [ left; now apply deepEqual_identical | ].
  destruct a, b; cbn in H, Hs; try congruence.
  unfold sameValueNumber in H.
  destruct (is_nan x && is_nan x0) eqn:Hnan.
  - apply andb_true_iff in Hnan as [Hx Hy]. right. now exists x, x0.
  - rewrite Hs in H. discriminate.
Qed.

(** X14. [deepEqual] does not coerce: two values it holds equal have the
    same [typeof], are both arrays or both not, and are both nullish or both
    not.  In particular [null] is never deep-equal to [undefined], nor an
    array to a plain object, nor a number to a string. *)
Theorem deepEqual_never_coerces a b :
  deepEqual a b = true ->
  typeof a = typeof b /\ isArray a = isArray b /\ looseNull a = looseNull b.
Proof.
  destruct a, b; cbn; intros H; solve [ discriminate | repeat split ].
Qed.

(** X15. For arrays without holes, which are the arrays of this model: two
    distinct such arrays are deep-equal exactly when they have the same
    length and are deep-equal position by position; the constructor of an
    array (a subclass of [Array]) plays no part.  (A hole is skipped by
    [every], so an array with holes is outside this statement.) *)
Theorem deepEqual_arrays_elementwise r c xs r' c' ys :
  deepEqual (VArray r c xs) (VArray r' c' ys) = true <->
  r = r' \/
  (List.length xs = List.length ys /\
   forall i x, nth_error xs i = Some x -> deepEqual x (nth i ys VUndefined) = true).
Proof.
  split.
  - intros H. apply deepEqual_array_inv in H as [H | (_ & Hlen & Hitems)].
    + left. cbn in H. now apply Nat.eqb_eq.
    + right. split; [ exact Hlen | exact Hitems ].
  - intros H. cbn.
    destruct (Nat.eqb_spec r r') as [ | Hne ]; [ reflexivity | ].
    destruct H as [ | [Hlen Hitems] ]; [ contradiction | ].
    rewrite Hlen, Nat.eqb_refl. cbn.
    unfold every. apply every_from_true. exact Hitems.
Qed.

(** X16. The getter [not] is an involution, and for [toBe] and [toEqual] it
    inverts the verdict: of [expect(x).m(y)] and [expect(x).not.m(y)]
    exactly one passes. *)
Theorem not_inverts_toBe_and_toEqual e v :
  Expect.not (Expect.not e) = e /\
  (toBe e v = Normal tt <-> toBe (Expect.not e) v <> Normal tt) /\
  (toEqual e v = Normal tt <-> toEqual (Expect.not e) v <> Normal tt).
Proof.
  destruct e as [a n]. unfold Expect.not, toBe, toEqual. cbn.
  rewrite negb_involutive.
  split; [ reflexivity | ].
  split.
  - destruct (objectIs a v), n; cbn; split; congruence.
  - destruct (deepEqual a v), n; cbn; split; congruence.
Qed.

(** X17. [toStrictEqual] between [null] and a plain object does not
    report a mismatch: reading [.constructor] off [null] raises a TypeError,
    with or without [not], so [expect(null).not.toStrictEqual({})] cannot
    pass. *)
Theorem toStrictEqual_null_against_object_throws negated r c props :
  toStrictEqual {| actual := VNull; isNot := negated |} (VObject r c props)
    = Throw ThrownTypeError /\
  toStrictEqual {| actual := VObject r c props; isNot := negated |} VNull
    = Throw ThrownTypeError.
Proof. split; reflexivity. Qed.

(** Swapping the two keys of the example object. *)
Lemma deepEqual_ignores_key_order_witness :
  deepEqual (VObject 8 ObjectCtor
               [("a", VNumber 1); ("b", VArray 9 ArrayCtor [VBool true])]) ba =
  deepEqual (VObject 8 ObjectCtor
               [("b", VArray 9 ArrayCtor [VBool true]); ("a", VNumber 1)]) ba.
Proof.
  apply (deepEqual_ignores_key_order 8 ObjectCtor
           [("a", VNumber 1); ("b", VArray 9 ArrayCtor [VBool true])]
           [("b", VArray 9 ArrayCtor [VBool true]); ("a", VNumber 1)]).
  - repeat constructor; cbn; intros H; repeat destruct H as [H | H];
      solve [ discriminate | contradiction ].
  - apply perm_swap.
Defined.

(** [Object.is(1, 1)] and [deepEqual(1, 1)]. *)
Lemma objectIs_implies_deepEqual_except_NaN_witness :
  objectIs (VNumber 1) (VNumber 1) = true /\
  (deepEqual (VNumber 1) (VNumber 1) = true \/
   exists x y, VNumber 1 = VNumber x /\ VNumber 1 = VNumber y /\
               is_nan x = true /\ is_nan y = true).
Proof.
  split; [ reflexivity | ].
  exact (objectIs_implies_deepEqual_except_NaN (VNumber 1) (VNumber 1) eq_refl).
Defined.

(** The two example objects are deep-equal, and of the same kind. *)
Lemma deepEqual_never_coerces_witness :
  deepEqual ab ba = true /\
  typeof ab = typeof ba /\ isArray ab = isArray ba /\ looseNull ab = looseNull ba.
Proof.
  split; [ reflexivity | ].
  exact (deepEqual_never_coerces ab ba eq_refl).
Defined.

End ExpectExtras.

(* ===================================================================== *)
(** ** Properties of the further matchers *)
(* ===================================================================== *)

Module MatcherFacts.
Import Js Expect Matchers.

(** [includes] is the substring test. *)
Lemma prefix_append (p s : string) :
  String.prefix p s = true <-> exists rest, s = (p ++ rest)%string.
Proof.
  revert s. induction p as [ | a p IH ]; intros s.
  - split; [ intros _; now exists s | intros _; now destruct s ].
  - destruct s as [ | b s ]; cbn.
    + split; [ discriminate | intros [rest H]; discriminate ].
    + destruct (Ascii.ascii_dec a b) as [ <- | Hne ].
      * rewrite IH. split; intros [rest H]; exists rest;
          [ now subst | now injection H ].
      * split; [ discriminate | intros [rest H]; injection H as H _; congruence ].
Qed.

Lemma includes_substring (s sub : string) :
  includes s sub = true <->
  exists before rest, s = (before ++ sub ++ rest)%string.
Proof.
  induction s as [ | a s IH ]; cbn [includes].
  - destruct (String.prefix sub EmptyString) eqn:Hp.
    + apply prefix_append in Hp as [rest Hrest].
      split; [ intros _; now exists EmptyString, rest | reflexivity ].
    + split; [ discriminate | ].
      intros (before & rest & H).
      destruct before; cbn in H; [ | discriminate ].
      assert (String.prefix sub EmptyString = true) as Hp'
        by (apply prefix_append; now exists rest).
      congruence.
  - destruct (String.prefix sub (String a s)) eqn:Hp.
    + apply prefix_append in Hp as [rest Hrest].
      split; [ intros _; now exists EmptyString, rest | reflexivity ].
    + rewrite IH. split.
      * intros (before & rest & ->). now exists (String a before), rest.
      * intros (before & rest & H). destruct before as [ | b before ]; cbn in H.
        -- assert (String.prefix sub (String a s) = true) as Hp'
             by (apply prefix_append; now exists rest).
           congruence.
        -- injection H as _ ->. now exists before, rest.
Qed.

(** X18. The truthiness matchers are complementary: for every value and
    either polarity exactly one of [toBeTruthy] and [toBeFalsy] passes, and
    [not.toBeTruthy] passes exactly when [toBeFalsy] does; the same holds of
    [toBeDefined] and [toBeUndefined].  [null] passes [toBeNull],
    [toBeDefined] and [toBeFalsy] together. *)
Theorem truthiness_matchers_are_complementary e :
  (toBeTruthy e = Passes <-> toBeFalsy e <> Passes) /\
  (toBeTruthy (Expect.not e) = Passes <-> toBeFalsy e = Passes) /\
  (toBeDefined e = Passes <-> toBeUndefined e <> Passes) /\
  (toBeDefined (Expect.not e) = Passes <-> toBeUndefined e = Passes) /\
  (isNot e = false -> toBeNull e = Passes ->
   toBeDefined e = Passes /\ toBeFalsy e = Passes).
Proof.
  destruct e as [a n].
  unfold toBeTruthy, toBeFalsy, toBeDefined, toBeUndefined, toBeNull, verdict,
         Expect.not; cbn [actual isNot].
  repeat split.
  1-4: destruct (toBoolean a), n; cbn; congruence.
  1-4: destruct (strictEquals a VUndefined), n; cbn; congruence.
  all: subst n; destruct a; cbn in *; congruence.
Qed.

(** X19. Under [not], [toHaveProperty(name, value)] never looks at
    [value]: the call behaves as [not.toHaveProperty(name)], and on a plain
    object it passes exactly when the object has no own property of that
    name.  So [expect({a: 1}).not.toHaveProperty("a", 2)] fails. *)
Theorem negated_toHaveProperty_ignores_the_value a property value :
  toHaveProperty {| actual := a; isNot := true |} property value =
  toHaveProperty {| actual := a; isNot := true |} property VUndefined /\
  forall r c props, a = VObject r c props ->
    (toHaveProperty {| actual := a; isNot := true |} property value = Some Passes <->
     hasOwn a property = false).
Proof.
  unfold toHaveProperty; cbn [actual isNot]. split.
  - destruct a; try reflexivity;
      destruct (hasOwn _ property); cbn; try reflexivity;
      now destruct (strictEquals value VUndefined).
  - intros r c props ->.
    destruct (hasOwn (VObject r c props) property); cbn.
    + split; discriminate.
    + rewrite andb_false_r. split; reflexivity.
Qed.

(** X20. Without [not], [toHaveProperty(name, value)] on a plain object
    passes exactly when the object has an own property of that name and
    either no value was given or the property's value is deep-equal to it;
    a property cannot be asserted to be [undefined]. *)
Theorem toHaveProperty_passes_iff r c props property value :
  toHaveProperty (expect (VObject r c props)) property value = Some Passes <->
  hasOwn (VObject r c props) property = true /\
  (value = VUndefined \/ deepEqual (get (VObject r c props) property) value = true).
Proof.
  unfold toHaveProperty, expect; cbn [actual isNot].
  destruct (hasOwn (VObject r c props) property); cbn [negb andb].
  - destruct (strictEquals value VUndefined) eqn:Hu; cbn [negb andb].
    + split; [ | reflexivity ].
      intros _. split; [ reflexivity | left ].
      destruct value; solve [ reflexivity | discriminate ].
    + destruct (deepEqual (get (VObject r c props) property) value) eqn:Hd;
        cbn [Bool.eqb].
      * split; [ intros _; split; [ reflexivity | now right ] | reflexivity ].
      * split; [ discriminate | ].
        intros [_ [-> | H]]; [ cbn in Hu | ]; discriminate.
  - split; [ discriminate | intros [H _]; discriminate ].
Qed.

Section Calls.
Variable invoke : nat -> Invocation.

(** X21. Under [not], [toThrow(expected)] never looks at [expected]: it
    passes exactly when the function returns, and fails with the same
    message whatever message or pattern was asked for. *)
Theorem negated_toThrow_ignores_the_expectation ref expected :
  toThrow invoke {| actual := VFunction ref; isNot := true |} expected =
  toThrow invoke {| actual := VFunction ref; isNot := true |} Omitted /\
  (toThrow invoke {| actual := VFunction ref; isNot := true |} expected = Passes <->
   forall error, invoke ref <> ThrowsValue error).
Proof.
  unfold toThrow; cbn [actual isNot].
  destruct (invoke ref) as [ | error | ]; cbn.
  - split; [ now destruct expected | split; [ discriminate | reflexivity ] ].
  - split; [ reflexivity | split; [ discriminate | ] ].
    intros H. now contradiction (H error).
  - split; [ now destruct expected | split; [ discriminate | reflexivity ] ].
Qed.

(** X22. [toThrow] on a value that is not a function fails with
    ["toThrow expects a function"] under either polarity:
    [expect(5).not.toThrow()] does not pass. *)
Theorem toThrow_needs_a_function e expected :
  typeof (actual e) <> "function" ->
  toThrow invoke e expected = Fails [Text "toThrow expects a function"].
Proof.
  unfold toThrow. destruct (actual e); cbn; intros H; try reflexivity.
  now contradiction H.
Qed.

(** X23. Without [not] and with a non-empty expected string, [toThrow]
    passes exactly when the function throws a value whose message contains
    that string; when the thrown value is [null] or [undefined], or has no
    message, the check itself raises a TypeError. *)
Theorem toThrow_with_message ref s :
  s <> EmptyString ->
  (toThrow invoke (expect (VFunction ref)) (ExpectedString s) = Passes <->
   exists m before rest,
     invoke ref = ThrowsValue (CaughtMessage m) /\ m = (before ++ s ++ rest)%string) /\
  (invoke ref = ThrowsValue CaughtNullish \/ invoke ref = ThrowsValue CaughtNoMessage ->
   toThrow invoke (expect (VFunction ref)) (ExpectedString s) = RaisesTypeError).
Proof.
  intros Hs. apply String.eqb_neq in Hs.
  unfold toThrow, expect, checkIncludes; cbn [actual isNot]. split.
  - destruct (invoke ref) as [ | [ | m | ] | ]; cbn; rewrite ?Hs; cbn.
    + split; [ discriminate | intros (m & b & r & H & _); discriminate ].
    + split; [ discriminate | intros (m & b & r & H & _); discriminate ].
    + destruct (includes m s) eqn:Hin.
      * apply includes_substring in Hin as (before & rest & Hm).
        split; [ intros _; now exists m, before, rest | reflexivity ].
      * split; [ discriminate | ].
        intros (m' & before & rest & [= <-] & Hm).
        assert (includes m s = true) as Hin'
          by (apply includes_substring; now exists before, rest).
        congruence.
    + split; [ discriminate | intros (m & b & r & H & _); discriminate ].
    + split; [ discriminate | intros (m & b & r & H & _); discriminate ].
  - intros [-> | ->]; cbn; now rewrite Hs.
Qed.

End Calls.

Section Async.
Variable notAFunction : string.

(** X24. [toThrowAsync] calls [this.actual] even when it is a Promise; the
    call raises a TypeError inside the [try] block, so for a Promise the
    matcher passes, and its negation fails, whatever the promise does.  A
    RegExp expectation is ignored: only a string is checked. *)
Theorem toThrowAsync_on_a_promise_and_patterns negated actual test :
  toThrowAsync notAFunction APromise negated Omitted =
    (if negated
     then Fails [Text "Expected async function "; Text "not "; Text "to throw"]
     else Passes) /\
  toThrowAsync notAFunction actual negated (ExpectedRegExp test) =
  toThrowAsync notAFunction actual negated Omitted.
Proof.
  split.
  - now destruct negated.
  - unfold toThrowAsync. destruct actual as [ [ | error | ] | | ]; cbn;
      try reflexivity; now destruct negated.
Qed.

End Async.

(** [expect(5).not.toThrow()] *)
Lemma toThrow_needs_a_function_witness :
  typeof (VNumber 5) <> "function" /\
  toThrow MoreFixtures.behaviours {| actual := VNumber 5; isNot := true |} Omitted =
    Fails [Text "toThrow expects a function"].
Proof.
  assert (typeof (VNumber 5) <> "function") as H by discriminate.
  split; [ exact H | ].
  exact (toThrow_needs_a_function MoreFixtures.behaviours
           {| actual := VNumber 5; isNot := true |} Omitted H).
Defined.

(** Function 1 throws an Error whose message contains ["file"]. *)
Lemma toThrow_with_message_witness :
  "file" <> EmptyString /\
  toThrow MoreFixtures.behaviours (expect (VFunction 1)) (ExpectedString "file") = Passes.
Proof.
  assert ("file" <> EmptyString) as H by discriminate.
  split; [ exact H | ].
  apply (proj1 (toThrow_with_message MoreFixtures.behaviours 1 "file" H)).
  exists "boom: file missing", "boom: ", " missing". split; reflexivity.
Defined.

End MatcherFacts.
